(** * ADF lead validation (jsontopyobj.py, xmltodict1.py)

    The program declares a tree of pydantic record classes (Lead, ADF,
    Prospect, Vehicle, ...) with field validators and whole-record
    validators, builds a [Lead] from a JSON document and prints either the
    re-flattened record or the collected rejection messages.

    The development has four layers:
    - the raw tree ([json]) and the validated values ([value]);
    - the Python fragments the validators are written in (exceptions,
      [in], comparisons, [re.match]);
    - the validation engine the classes are declared against (field loop,
      [Optional], [Union], [List], whole-record validators, [model_dump]);
    - the classes of the source, one module per class, the handler of
      the [try] block, and the file name [CreateJSONObject] computes.

    Library functions whose code is outside the repository
    ([datetime.fromisoformat], [pycountry.countries.lookup] and the lax
    string/float to integer coercions) are the fields of the class
    [Library]; the theorems are stated for every library, and a small
    sample library runs the examples. *)

From Stdlib Require Import List String Ascii ZArith Bool Lia.
From Stdlib Require Import SpecFloat.
Import ListNotations.
Set Warnings "-register-all".
Local Open Scope string_scope.
Local Open Scope list_scope.

(** ** The raw tree *)

(** What [json.load] returns: [None], [bool], [int] (unbounded), [float],
    [str], [list] and [dict] with string keys.  A [dict] is kept as the
    list of its entries in insertion order; [dict_get] reads the first
    entry of a key. *)
Inductive json : Type :=
| JNull
| JBool (b : bool)
| JInt (z : Z)
| JFloat (f : spec_float)
| JStr (s : string)
| JList (items : list json)
| JDict (entries : list (string * json)).

Fixpoint dict_get {A : Type} (key : string) (d : list (string * A)) : option A :=
  match d with
  | [] => None
  | (k, v) :: rest => if String.eqb key k then Some v else dict_get key rest
  end.

(** ** Validated values *)

(** The values a validated field can hold: [None], a [str], an [int], a
    list of values, or an instance of a record class with its attributes in
    declaration order. *)
Inductive value : Type :=
| VNone
| VStr (s : string)
| VInt (z : Z)
| VList (items : list value)
| VModel (cls : string) (attrs : list (string * value)).

(** Python's [==] on these values. *)
Fixpoint value_eqb (a b : value) {struct a} : bool :=
  match a, b with
  | VNone, VNone => true
  | VStr s, VStr t => String.eqb s t
  | VInt x, VInt y => Z.eqb x y
  | VList xs, VList ys =>
      (fix items_eqb (xs ys : list value) {struct xs} : bool :=
         match xs, ys with
         | [], [] => true
         | x :: xs', y :: ys' => value_eqb x y && items_eqb xs' ys'
         | _, _ => false
         end) xs ys
  | VModel c fs, VModel c' fs' =>
      String.eqb c c' &&
      (fix attrs_eqb (fs fs' : list (string * value)) {struct fs} : bool :=
         match fs, fs' with
         | [], [] => true
         | (k, x) :: r, (k', y) :: r' => String.eqb k k' && value_eqb x y && attrs_eqb r r'
         | _, _ => false
         end) fs fs'
  | _, _ => false
  end.

(** [getattr(obj, name)] on a record instance. *)
Definition getattr (obj : value) (name : string) : option value :=
  match obj with
  | VModel _ attrs => dict_get name attrs
  | _ => None
  end.

(** [type(x).__name__], as Python's error messages spell it. *)
Definition type_name (x : value) : string :=
  match x with
  | VNone => "NoneType"
  | VStr _ => "str"
  | VInt _ => "int"
  | VList _ => "list"
  | VModel cls _ => cls
  end.

(** ** The Python fragment of the validators *)

Inductive exn : Type :=
| ValueError (msg : string)
| TypeError (msg : string)
| LookupError (msg : string)
| AttributeError (msg : string).

(** [str(e)] of an exception instance. *)
Definition exn_text (e : exn) : string :=
  match e with
  | ValueError m | TypeError m | LookupError m | AttributeError m => m
  end.

(** A Python computation: it returns or raises. *)
Inductive py (A : Type) : Type :=
| Return (a : A)
| Raise (e : exn).
Arguments Return {A} a.
Arguments Raise {A} e.

Definition py_bind {A B : Type} (c : py A) (k : A -> py B) : py B :=
  match c with
  | Return a => k a
  | Raise e => Raise e
  end.

Notation "x <- c ;; k" := (py_bind c (fun x => k))
  (at level 61, c at next level, right associativity).

(** [x in (c1, ..., cn)]. *)
Definition py_in (x : value) (tuple : list value) : bool :=
  existsb (value_eqb x) tuple.

(** [x < n], [x >= n], [x <= n] against an integer literal: defined on
    integers, a [TypeError] on anything else. *)
Definition unorderable (op : string) (x : value) : exn :=
  TypeError ("'" ++ op ++ "' not supported between instances of '"
             ++ type_name x ++ "' and 'int'").

Definition py_lt (x : value) (n : Z) : py bool :=
  match x with
  | VInt z => Return (z <? n)%Z
  | _ => Raise (unorderable "<" x)
  end.

Definition py_ge (x : value) (n : Z) : py bool :=
  match x with
  | VInt z => Return (z >=? n)%Z
  | _ => Raise (unorderable ">=" x)
  end.

Definition py_le (x : value) (n : Z) : py bool :=
  match x with
  | VInt z => Return (z <=? n)%Z
  | _ => Raise (unorderable "<=" x)
  end.

(** *** [re.match] on the patterns of the source *)

(** The pattern syntax the source uses: [^], [$] and a character range
    repeated a fixed number of times. *)
Inductive re_atom : Type :=
| Caret
| Dollar
| Range (lo hi : ascii) (times : nat).

Definition newline : string := String (ascii_of_nat 10) EmptyString.

Definition in_range (lo hi c : ascii) : bool :=
  (nat_of_ascii lo <=? nat_of_ascii c)%nat && (nat_of_ascii c <=? nat_of_ascii hi)%nat.

Fixpoint take_range (lo hi : ascii) (times : nat) (s : string) : option string :=
  match times with
  | O => Some s
  | S n =>
      match s with
      | String c rest => if in_range lo hi c then take_range lo hi n rest else None
      | EmptyString => None
      end
  end.

(** [re_match_at atoms at_start s]: the atoms match a prefix of [s], where
    [at_start] says whether [s] begins at the start of the subject.  [$]
    matches at the end of the subject and just before a newline that ends
    the subject. *)
Fixpoint re_match_at (atoms : list re_atom) (at_start : bool) (s : string) : bool :=
  match atoms with
  | [] => true
  | Caret :: rest => at_start && re_match_at rest at_start s
  | Dollar :: rest =>
      (String.eqb s "" || String.eqb s newline) && re_match_at rest at_start s
  | Range lo hi n :: rest =>
      match take_range lo hi n s with
      | Some s' => re_match_at rest (at_start && Nat.eqb n 0) s'
      | None => false
      end
  end.

(** [bool(re.match(pattern, x))]: a [TypeError] when [x] is not a string. *)
Definition re_match (pattern : list re_atom) (x : value) : py bool :=
  match x with
  | VStr s => Return (re_match_at pattern true s)
  | _ => Raise (TypeError ("expected string or bytes-like object, got '"
                           ++ type_name x ++ "'"))
  end.

(** ** Library functions outside the repository *)

(** Why the lax coercion to an integer field refuses a string or a float:
    it is no integer ([int_parsing]), it has a fractional part
    ([int_from_float]), it is NaN or an infinity ([finite_number]), or it
    is beyond the size the coercion takes ([int_parsing_size]). *)
Inductive int_refusal : Type :=
| NotAnInteger
| Fractional
| NotFinite
| TooLarge.

Class Library : Type := {
  (** the lax coercion of a string to an integer field *)
  str_as_int : string -> Z + int_refusal;
  (** the lax coercion of a float to an integer field *)
  float_as_int : spec_float -> Z + int_refusal;
  (** [datetime.fromisoformat(s)] returns ([true]) or raises [ValueError] *)
  fromisoformat_parses : string -> bool;
  (** [pycountry.countries.lookup(s)] returns ([true]) or raises [LookupError] *)
  countries_lookup_finds : string -> bool
}.

(** [datetime.fromisoformat(x)]; the parsed date is not used by the source. *)
Definition datetime_fromisoformat {L : Library} (x : value) : py unit :=
  match x with
  | VStr s =>
      if fromisoformat_parses s then Return tt
      else Raise (ValueError ("Invalid isoformat string: " ++ s))
  | _ => Raise (TypeError "fromisoformat: argument must be str")
  end.

(** [pycountry.countries.lookup(x)]: a value that is not a string is
    answered with [LookupError], like an unknown string. *)
Definition countries_lookup {L : Library} (x : value) : py unit :=
  match x with
  | VStr s =>
      if countries_lookup_finds s then Return tt
      else Raise (LookupError ("Could not find a record for " ++ s))
  | _ => Raise (LookupError "")
  end.

(** ** The validation engine

    The record classes are declared against pydantic (version 2, default
    configuration).  What the development takes from it:
    - a field is read from its alias when it has one, otherwise from its
      name; keys that name no field are ignored;
    - an absent key takes the field's default, which is not validated; a
      field without default is reported [missing];
    - values are validated in lax mode: [str] takes strings only, [int]
      takes integers, booleans and the floats and strings that coerce;
    - a function attached with [field_validator] runs after the field's
      type validation succeeded, also on an explicit [None] of an
      [Optional] field; a [ValueError] it raises becomes an error of type
      [value_error] with message ["Value error, " + text], any other
      exception leaves the validation as it is;
    - the errors of all fields, nested records and list items are collected;
      a function attached with [model_validator(mode="after")] runs on the
      assembled record only when no field of the record was rejected;
    - a union reports the errors of each member under the member's tag:
      the name of the type, for a class with a whole-record validator [f]
      the name wrapped as [function-after[f(), Class]];
    - [model_dump()] keys the re-flattened record by field name. *)

(** One entry of [ValidationError.errors()]: where ([loc]: keys, union
    member tags and list indexes from the validated record down) and what
    ([kind]). *)
Inductive loc_item : Type :=
| LKey (k : string)
| LIndex (i : nat).

Inductive err_kind : Type :=
| EMissing
| EStringType
| EIntType
| EIntParsing
| EIntFromFloat
| EFiniteNumber
| EIntParsingSize
| EGreaterThan (bound : Z)
| EModelType (cls : string)
| EListType
| EValueError (msg : string).

Record error : Type := mkError { loc : list loc_item; kind : err_kind }.

(** The entry's ["type"] and ["msg"]. *)
Definition err_type (e : error) : string :=
  match kind e with
  | EMissing => "missing"
  | EStringType => "string_type"
  | EIntType => "int_type"
  | EIntParsing => "int_parsing"
  | EIntFromFloat => "int_from_float"
  | EFiniteNumber => "finite_number"
  | EIntParsingSize => "int_parsing_size"
  | EGreaterThan _ => "greater_than"
  | EModelType _ => "model_type"
  | EListType => "list_type"
  | EValueError _ => "value_error"
  end.

Definition err_msg (e : error) : string :=
  match kind e with
  | EMissing => "Field required"
  | EStringType => "Input should be a valid string"
  | EIntType => "Input should be a valid integer"
  | EIntParsing => "Input should be a valid integer, unable to parse string as an integer"
  | EIntFromFloat => "Input should be a valid integer, got a number with a fractional part"
  | EFiniteNumber => "Input should be a finite number"
  | EIntParsingSize => "Unable to parse input string as an integer, exceeded maximum size"
  | EGreaterThan _ => "Input should be greater than 0"
  | EModelType cls => "Input should be a valid dictionary or instance of " ++ cls
  | EListType => "Input should be a valid list"
  | EValueError m => "Value error, " ++ m
  end.

(** What validating a raw value gives: the validated value, the collected
    errors (a [ValidationError] in the making), or an exception that is
    not a validation error and leaves the whole run at once. *)
Inductive outcome (A : Type) : Type :=
| Ok (a : A)
| Invalid (errs : list error)
| Escaped (e : exn).
Arguments Ok {A} a.
Arguments Invalid {A} errs.
Arguments Escaped {A} e.

Definition is_ok {A : Type} (r : outcome A) : bool :=
  match r with Ok _ => true | _ => false end.

Definition escapes {A : Type} (r : outcome A) : bool :=
  match r with Escaped _ => true | _ => false end.

Definition errors_of {A : Type} (r : outcome A) : list error :=
  match r with Invalid es => es | _ => [] end.

Definition push (k : loc_item) (e : error) : error :=
  mkError (k :: loc e) (kind e).

(** Errors found below the key, tag or index [k] are reported under it. *)
Definition under {A : Type} (k : loc_item) (r : outcome A) : outcome A :=
  match r with
  | Invalid es => Invalid (map (push k) es)
  | _ => r
  end.

(** A field type: its tag in a union's error locations and its validation. *)
Record tyv : Type := mkTy { tname : string; run : json -> outcome value }.

Definition fail (k : err_kind) {A : Type} : outcome A := Invalid [mkError [] k].

(** [str]: only a string is a string. *)
Definition Str : tyv :=
  mkTy "str" (fun j => match j with JStr s => Ok (VStr s) | _ => fail EStringType end).

Definition refusal_kind (r : int_refusal) : err_kind :=
  match r with
  | NotAnInteger => EIntParsing
  | Fractional => EIntFromFloat
  | NotFinite => EFiniteNumber
  | TooLarge => EIntParsingSize
  end.

Section Integers.
Context {L : Library}.

(** [int] in lax mode: an integer, a boolean, a float or a string the
    library coerces; a refusal is reported with its own kind. *)
Definition validate_int (j : json) : outcome Z :=
  match j with
  | JInt z => Ok z
  | JBool b => Ok (if b then 1 else 0)%Z
  | JFloat f => match float_as_int f with inl z => Ok z | inr r => fail (refusal_kind r) end
  | JStr s => match str_as_int s with inl z => Ok z | inr r => fail (refusal_kind r) end
  | _ => fail EIntType
  end.

Definition Int : tyv :=
  mkTy "int" (fun j =>
    match validate_int j with
    | Ok z => Ok (VInt z)
    | Invalid es => Invalid es
    | Escaped e => Escaped e
    end).

(** [PositiveInt]: an [int] greater than 0. *)
Definition PositiveInt : tyv :=
  mkTy "int" (fun j =>
    match validate_int j with
    | Ok z => if (0 <? z)%Z then Ok (VInt z) else fail (EGreaterThan 0)
    | Invalid es => Invalid es
    | Escaped e => Escaped e
    end).

End Integers.

(** [Optional[T]]: [None] or a [T]. *)
Definition Optional (t : tyv) : tyv :=
  mkTy (tname t) (fun j => match j with JNull => Ok VNone | _ => run t j end).

(** [List[T]]: every item is validated; the errors of all items are kept,
    each under its index. *)
Fixpoint validate_items (t : tyv) (i : nat) (items : list json)
    (vals : list value) (errs : list error) : outcome (list value) :=
  match items with
  | [] => match errs with [] => Ok vals | _ => Invalid errs end
  | x :: rest =>
      match under (LIndex i) (run t x) with
      | Ok v => validate_items t (S i) rest (vals ++ [v]) errs
      | Invalid es => validate_items t (S i) rest vals (errs ++ es)
      | Escaped e => Escaped e
      end
  end.

Definition ListOf (t : tyv) : tyv :=
  mkTy ("list[" ++ tname t ++ "]") (fun j =>
    match j with
    | JList items =>
        match validate_items t 0 items [] [] with
        | Ok vs => Ok (VList vs)
        | Invalid es => Invalid es
        | Escaped e => Escaped e
        end
    | _ => fail EListType
    end).

(** [Union[T1, ..., Tn]]: the members are tried in order; the first that
    validates gives the value, and when none does the errors of every
    member are reported, each under the member's tag.  (The members of the
    source's unions accept disjoint kinds of raw value -- a string, a
    mapping, a list -- so at most one member validates and the library's
    ranking of several successes never comes into play.) *)
Fixpoint validate_union (members : list tyv) (j : json) (errs : list error)
    : outcome value :=
  match members with
  | [] => Invalid errs
  | t :: rest =>
      match under (LKey (tname t)) (run t j) with
      | Ok v => Ok v
      | Invalid es => validate_union rest j (errs ++ es)
      | Escaped e => Escaped e
      end
  end.

Definition Union (members : list tyv) : tyv :=
  mkTy "union" (fun j => validate_union members j []).

(** A validator function attached with [field_validator] or
    [model_validator(mode="after")]: the name it is defined under and its
    body, which returns the value or raises.  A [ValueError] becomes a
    [value_error] entry; any other exception escapes. *)
Record validator : Type := def { func_name : string; call :> value -> py value }.

Fixpoint apply_validators (fs : list validator) (v : value) : outcome value :=
  match fs with
  | [] => Ok v
  | f :: rest =>
      match f v with
      | Return v' => apply_validators rest v'
      | Raise (ValueError m) => fail (EValueError m)
      | Raise e => Escaped e
      end
  end.

(** A field of a record class: its name, its alias if [Field(alias=...)]
    gives one, its annotation, its default (a field without one is
    required) and the functions [field_validator] attaches to it. *)
Record field : Type := mkField {
  fname : string;
  falias : option string;
  annotation : tyv;
  default : option value;
  validators : list validator
}.

(** The key a field is read from, and reported under: its alias when it
    has one. *)
Definition fkey (f : field) : string :=
  match falias f with Some a => a | None => fname f end.

(** One field of a mapping: a key that is present is validated against the
    annotation and then by the attached functions; a key that is absent
    takes the default unvalidated, or is reported missing. *)
Definition validate_field (f : field) (d : list (string * json)) : outcome value :=
  match dict_get (fkey f) d with
  | Some raw =>
      under (LKey (fkey f))
        match run (annotation f) raw with
        | Ok v => apply_validators (validators f) v
        | r => r
        end
  | None =>
      match default f with
      | Some v => Ok v
      | None => Invalid [mkError [LKey (fkey f)] EMissing]
      end
  end.

(** The field loop of a record: the fields are validated in declaration
    order, the attribute values and the errors are accumulated, and the
    loop goes on after a field's errors. *)
Fixpoint validate_fields (fs : list field) (d : list (string * json))
    (attrs : list (string * value)) (errs : list error)
    : outcome (list (string * value)) :=
  match fs with
  | [] => match errs with [] => Ok attrs | _ => Invalid errs end
  | f :: rest =>
      match validate_field f d with
      | Ok v => validate_fields rest d (attrs ++ [(fname f, v)]) errs
      | Invalid es => validate_fields rest d attrs (errs ++ es)
      | Escaped e => Escaped e
      end
  end.

(** The tag of a record class in the error locations of a union: the
    class name, wrapped once for each whole-record validator, the first
    declared innermost -- [function-after[check_required_fields(), Vehicle]]
    for a [Vehicle]. *)
Definition model_tag (cls : string) (after : list validator) : string :=
  fold_left
    (fun inner g => ("function-after[" ++ func_name g ++ "(), " ++ inner ++ "]")%string)
    after cls.

(** A record class: a mapping is validated field by field and the
    whole-record validators run on the assembled instance, only when no
    field was rejected.  Keys that name no field are ignored. *)
Definition BaseModel (cls : string) (fs : list field) (after : list validator) : tyv :=
  mkTy (model_tag cls after) (fun j =>
    match j with
    | JDict d =>
        match validate_fields fs d [] [] with
        | Ok attrs => apply_validators after (VModel cls attrs)
        | Invalid es => Invalid es
        | Escaped e => Escaped e
        end
    | _ => fail (EModelType cls)
    end).

(** [model_dump()]: the record as a mapping keyed by field name, nested
    records and lists flattened the same way. *)
Fixpoint model_dump (v : value) : json :=
  match v with
  | VNone => JNull
  | VStr s => JStr s
  | VInt z => JInt z
  | VList items => JList (map model_dump items)
  | VModel _ attrs => JDict (map (fun kv => let '(k, x) := kv in (k, model_dump x)) attrs)
  end.

(** Field declarations as the source writes them. *)

(** [name: T = Field(alias=a, default=None)] *)
Definition aliased (name a : string) (t : tyv) (checks : list validator) : field :=
  mkField name (Some a) t (Some VNone) checks.

(** [name: T = None] *)
Definition plain (name : string) (t : tyv) (checks : list validator) : field :=
  mkField name None t (Some VNone) checks.

(** [name: T] *)
Definition required (name : string) (t : tyv) : field :=
  mkField name None t None [].

(** ** The source: helper functions *)

(** [pattern = r"^[A-Z]{3}$"] *)
Definition currency_pattern : list re_atom :=
  [Caret; Range "A"%char "Z"%char 3; Dollar].

Definition is_valid_currency_code (currency_code : value) : py bool :=
  re_match currency_pattern currency_code.

Section Helpers.
Context {L : Library}.

Definition is_iso8601 (string : value) : py bool :=
  match datetime_fromisoformat string with
  | Return _ => Return true
  | Raise (ValueError _) => Return false
  | Raise e => Raise e
  end.

Definition is_valid_iso_3166_alpha_2 (code : value) : py bool :=
  match countries_lookup code with
  | Return _ => Return true
  | Raise (LookupError _) => Return false
  | Raise e => Raise e
  end.

End Helpers.

(** [getattr(obj, name)] as the whole-record validators call it. *)
Definition py_getattr (obj : value) (name : string) : py value :=
  match getattr obj name with
  | Some v => Return v
  | None => Raise (AttributeError ("'" ++ type_name obj ++ "' object has no attribute '"
                                   ++ name ++ "'"))
  end.

Definition is_None (v : value) : bool :=
  match v with VNone => true | _ => false end.

(** [[field for field in required_fields if getattr(obj, field) is None]] *)
Fixpoint empty_fields (obj : value) (required_fields : list string) : py (list string) :=
  match required_fields with
  | [] => Return []
  | field :: rest =>
      v <- py_getattr obj field ;;
      more <- empty_fields obj rest ;;
      Return (if is_None v then field :: more else more)
  end.

(** The body the [check_required_fields] validators share; each class
    passes its own name and its own [required_fields]. *)
Definition raise_if_empty (cls : string) (required_fields : list string) : validator :=
  def "check_required_fields" (fun obj =>
    empty_required_fields <- empty_fields obj required_fields ;;
    match empty_required_fields with
    | [] => Return obj
    | _ => Raise (ValueError ("The following required fields in " ++ cls ++ " are missing: "
                              ++ String.concat ", " empty_required_fields))
    end).

(** The enumerated validators all read
    [if value not in (None, ...): raise ValueError(msg)]; each has its own
    name, tuple and message. *)
Definition one_of (name : string) (allowed : list value) (msg : string) : validator :=
  def name (fun value =>
    if negb (py_in value allowed) then Raise (ValueError msg) else Return value).

(** ** The source: record classes *)

Module Id.
Section Cls.
Context {L : Library}.
Definition sequence : field :=
  aliased "sequence" "@sequence" (Optional PositiveInt) [].
Definition fields : list field :=
  [ sequence;
    aliased "source" "@source" (Optional Str) [] ].
Definition cls : tyv := BaseModel "Id" fields [].
End Cls.
End Id.

Module Odometer.
Definition validate_status : validator :=
  one_of "validate_status"
         [VNone; VStr "unknown"; VStr "rolledover"; VStr "replaced"; VStr "original"]
         "Invalid Status input".
Definition validate_units : validator :=
  one_of "validate_units" [VNone; VStr "km"; VStr "mi"] "Invalid Units input".
Section Cls.
Context {L : Library}.
Definition fields : list field :=
  [ aliased "status" "@status" (Optional Str) [validate_status];
    aliased "units" "@units" (Optional Str) [validate_units];
    aliased "odometer" "#text" (Optional Int) [] ].
Definition cls : tyv := BaseModel "Odometer" fields [].
End Cls.
End Odometer.

Module ColorCombination.
Definition validate_preference : validator :=
  def "validate_preference" (fun value =>
    low <- py_lt value 1 ;;
    if low then Raise (ValueError "Invalid Preference input") else Return value).
Section Cls.
Context {L : Library}.
Definition fields : list field :=
  [ plain "interior_color" (Optional Str) [];
    plain "exterior_color" (Optional Str) [];
    plain "preference" (Optional Int) [validate_preference] ].
Definition cls : tyv := BaseModel "ColorCombination" fields [].
End Cls.
End ColorCombination.

Module ImageTag.
Definition fields : list field :=
  [ aliased "width" "@width" (Optional Str) [];
    aliased "height" "@height" (Optional Str) [];
    aliased "alt_text" "@alttext" (Optional Str) [];
    aliased "image_tag" "#text" (Optional Str) [] ].
Definition cls : tyv := BaseModel "ImageTag" fields [].
End ImageTag.

Module Price.
Definition validate_type : validator :=
  one_of "validate_type"
         [VNone; VStr "quote"; VStr "offer"; VStr "msrp"; VStr "invoice"; VStr "call";
          VStr "apraisal"; VStr "asking"]
         "Invalid Price Type input".
Definition validate_currency : validator :=
  def "validate_currency" (fun value =>
    valid <- is_valid_currency_code value ;;
    if Bool.eqb valid false then Raise (ValueError "Invalid Currency input") else Return value).
Definition validate_delta : validator :=
  one_of "validate_delta" [VNone; VStr "absolute"; VStr "relative"; VStr "percentage"]
         "Invalid Price Delta input".
Definition validate_relativeto : validator :=
  one_of "validate_relativeto" [VNone; VStr "msrp"; VStr "invoice"] "Invalid Price Type input".
Section Cls.
Context {L : Library}.
Definition currency : field :=
  aliased "currency" "@curreny" (Optional Str) [validate_currency].
Definition fields : list field :=
  [ aliased "type" "@type" (Optional Str) [validate_type];
    currency;
    aliased "delta" "@delta" (Optional Str) [validate_delta];
    aliased "relative_to" "@relative_to" (Optional Str) [validate_relativeto];
    aliased "source" "@source" (Optional Str) [];
    aliased "price" "@price" (Optional Int) [] ].
Definition cls : tyv := BaseModel "Price" fields [].
End Cls.
End Price.

Module Option.
Definition validate_weighting : validator :=
  def "validate_weighting" (fun value =>
    high <- py_ge value 100 ;;
    out <- (if high then Return true else py_le value (-100)) ;;
    if out then Raise (ValueError "Invalid Weighting input") else Return value).
Section Cls.
Context {L : Library}.
Definition weighting : field :=
  plain "weighting" (Optional Int) [validate_weighting].
Definition fields : list field :=
  [ plain "option_name" (Optional Str) [];
    plain "manufacture_code" (Optional Str) [];
    plain "stock" (Optional Str) [];
    weighting;
    plain "price" (Optional Price.cls) [] ].
Definition cls : tyv := BaseModel "Option" fields [].
End Cls.
End Option.

Module Amount.
Definition validate_type : validator :=
  one_of "validate_type"
         [VNone; VStr "downpayment"; VStr "monthly"; VStr "total"] "Invalid Type input".
Definition validate_limit : validator :=
  one_of "validate_limit"
         [VNone; VStr "maximum"; VStr "minimum"; VStr "exact"] "Invalid Limit input".
Definition validate_currency : validator :=
  def "validate_currency" (fun value =>
    valid <- is_valid_currency_code value ;;
    if Bool.eqb valid false then Raise (ValueError "Invalid Currency input") else Return value).
Section Cls.
Context {L : Library}.
Definition currency : field :=
  aliased "currency" "@currency" (Optional Str) [validate_currency].
Definition fields : list field :=
  [ aliased "type" "@type" (Optional Str) [validate_type];
    aliased "limit" "@limit" (Optional Str) [validate_limit];
    currency;
    plain "amount" (Optional Int) [] ].
Definition cls : tyv := BaseModel "Amount" fields [].
End Cls.
End Amount.

Module Balance.
Definition validate_type : validator :=
  one_of "validate_type" [VNone; VStr "finance"; VStr "residual"] "Invalid Type input".
Definition validate_currency : validator :=
  def "validate_currency" (fun value =>
    valid <- is_valid_currency_code value ;;
    if Bool.eqb valid false then Raise (ValueError "Invalid Currency input") else Return value).
Section Cls.
Context {L : Library}.
Definition currency : field :=
  aliased "currency" "@currency" (Optional Str) [validate_currency].
Definition fields : list field :=
  [ aliased "type" "@type" (Optional Str) [validate_type];
    currency;
    plain "balance" (Optional Int) [] ].
Definition cls : tyv := BaseModel "Balance" fields [].
End Cls.
End Balance.

Module Finance.
Definition validate_method : validator :=
  one_of "validate_method"
         [VNone; VStr "cash"; VStr "finance"; VStr "lease"] "Invalid Status input".
Section Cls.
Context {L : Library}.
Definition fields : list field :=
  [ plain "method" (Optional Str) [validate_method];
    plain "amount" (Optional Amount.cls) [];
    plain "balance" (Optional Balance.cls) [] ].
Definition cls : tyv := BaseModel "Finance" fields [].
End Cls.
End Finance.

Module Vehicle.
(** The source iterates a set literal; the order in which Python visits
    it is not fixed, and the names are written here in source order. *)
Definition check_required_fields : validator :=
  raise_if_empty "Vehicle" ["year"; "make"; "model"].
Definition validate_interest : validator :=
  one_of "validate_interest"
         [VNone; VStr "buy"; VStr "lease"; VStr "sell"; VStr "trade-in"; VStr "test-drive"]
         "Invalid Interest input".
Definition validate_status : validator :=
  one_of "validate_status" [VNone; VStr "new"; VStr "used"] "Invalid Status input".
Definition validate_conditon : validator :=
  one_of "validate_conditon"
         [VNone; VStr "excellent"; VStr "good"; VStr "fair"; VStr "poor"; VStr "unknown"]
         "Invalid Condition input".
Section Cls.
Context {L : Library}.
Definition fields : list field :=
  [ aliased "interest" "@interest" (Optional Str) [validate_interest];
    aliased "status" "@status" (Optional Str) [validate_status];
    plain "id" (Optional Id.cls) [];
    required "year" Str;
    required "make" Str;
    required "model" Str;
    plain "vin" (Optional Str) [];
    plain "stock" (Optional Str) [];
    plain "trim" (Optional Str) [];
    plain "doors" (Optional Str) [];
    plain "bodystyle" (Optional Str) [];
    plain "odometer" (Optional Odometer.cls) [];
    plain "condition" (Optional Str) [validate_conditon];
    plain "color_combination"
      (Optional (Union [ColorCombination.cls; ListOf ColorCombination.cls])) [];
    plain "imagetag" (Optional ImageTag.cls) [];
    plain "price" (Optional Price.cls) [];
    plain "price_comments" (Optional Str) [];
    plain "option" (Optional Option.cls) [];
    plain "finance" (Optional Finance.cls) [];
    plain "comments" (Optional Str) [] ].
Definition cls : tyv := BaseModel "Vehicle" fields [check_required_fields].
End Cls.
End Vehicle.

Module Name.
Definition validate_part : validator :=
  one_of "validate_part"
         [VNone; VStr "first"; VStr "middle"; VStr "suffix"; VStr "last"; VStr "full"]
         "Invalid Name Part input".
Definition validate_type : validator :=
  one_of "validate_type" [VNone; VStr "individual"; VStr "business"] "Invalid Name Type input".
Definition fields : list field :=
  [ aliased "part" "@part" (Optional Str) [validate_part];
    aliased "type" "@type" (Optional Str) [validate_type];
    aliased "name" "#text" (Optional Str) [] ].
Definition cls : tyv := BaseModel "Name" fields [].
End Name.

Module Email.
Section Cls.
Context {L : Library}.
Definition fields : list field :=
  [ aliased "preferred_contact" "@preferredcontact" (Optional Int) [];
    aliased "email" "#text" (Optional Str) [] ].
Definition cls : tyv := BaseModel "Email" fields [].
End Cls.
End Email.

Module Phone.
Definition validate_type : validator :=
  one_of "validate_type" [VNone; VStr "phone"; VStr "fax"; VStr "cellphone"; VStr "pager"]
         "Invalid Phone Type input".
Definition validate_time : validator :=
  one_of "validate_time"
         [VNone; VStr "morning"; VStr "afternoon"; VStr "evening"; VStr "nopreference";
          VStr "day"]
         "Invalid Phone Time input".
Section Cls.
Context {L : Library}.
Definition fields : list field :=
  [ aliased "type" "@type" (Optional Str) [validate_type];
    aliased "time" "@time" (Optional Str) [validate_time];
    aliased "preferred_contact" "@preferredcontact" (Optional Int) [];
    aliased "phone" "#text" (Optional Str) [] ].
Definition cls : tyv := BaseModel "Phone" fields [].
End Cls.
End Phone.

Module Street.
Definition validate_line : validator :=
  one_of "validate_line" [VNone; VStr "1"; VStr "2"; VStr "3"; VStr "4"; VStr "5"]
         "Invalid Street Line input".
Definition fields : list field :=
  [ aliased "line" "@line" (Optional Str) [validate_line];
    aliased "street" "#text" (Optional Str) [] ].
Definition cls : tyv := BaseModel "Street" fields [].
End Street.

Module Address.
Definition validate_type : validator :=
  one_of "validate_type"
         [VNone; VStr "work"; VStr "home"; VStr "delivery"] "Invalid Address Type input".
Section Cls.
Context {L : Library}.
Definition validate_country : validator :=
  def "validate_country" (fun value =>
    valid <- is_valid_iso_3166_alpha_2 value ;;
    if Bool.eqb valid false then Raise (ValueError "Invalid Country input") else Return value).
Definition fields : list field :=
  [ aliased "type" "@type" (Optional Str) [validate_type];
    plain "street" (Optional Street.cls) [];
    plain "apartment" (Optional Str) [];
    plain "city" (Optional Str) [];
    plain "regioncode" (Optional Str) [];
    plain "postalcode" (Optional Str) [];
    plain "country" (Optional Str) [validate_country] ].
Definition cls : tyv := BaseModel "Address" fields [].
End Cls.
End Address.

Module Contact.
Definition check_required_fields : validator :=
  raise_if_empty "Contact" ["name"].
Section Cls.
Context {L : Library}.
Definition name : field :=
  plain "name" (Optional (Union [Str; Name.cls; ListOf Name.cls])) [].
Definition fields : list field :=
  [ aliased "primary_contact" "@primarycontact" (Optional Int) [];
    name;
    plain "email" (Optional (Union [Str; Email.cls])) [];
    plain "phone" (Optional (Union [Str; Phone.cls; ListOf Phone.cls])) [];
    plain "address" (Optional Address.cls) [] ].
Definition cls : tyv := BaseModel "Contact" fields [check_required_fields].
End Cls.
End Contact.

Module TimeFrame.
Definition validate_dates : validator :=
  def "validate_dates" (fun values =>
    earliest <- py_getattr values "earliest_date" ;;
    if is_None earliest then
      latest <- py_getattr values "latest_date" ;;
      if is_None latest then
        Raise (ValueError "At least one of 'earliest_date' or 'latest_date' must be provided.")
      else Return values
    else Return values).
Section Cls.
Context {L : Library}.
Definition validate_earliest_date : validator :=
  def "validate_earliest_date" (fun value =>
    valid <- is_iso8601 value ;;
    if Bool.eqb valid false then Raise (ValueError "Invalid Earliest Date input")
    else Return value).
Definition validate_latest_date : validator :=
  def "validate_latest_date" (fun value =>
    valid <- is_iso8601 value ;;
    if Bool.eqb valid false then Raise (ValueError "Invalid Latest Date input")
    else Return value).
Definition earliest_date : field :=
  plain "earliest_date" (Optional Str) [validate_earliest_date].
Definition latest_date : field :=
  plain "latest_date" (Optional Str) [validate_latest_date].
Definition fields : list field :=
  [ plain "description" (Optional Str) [];
    earliest_date;
    latest_date ].
Definition cls : tyv := BaseModel "TimeFrame" fields [validate_dates].
End Cls.
End TimeFrame.

Module Customer.
Definition check_required_fields : validator :=
  raise_if_empty "Customer" [].
Section Cls.
Context {L : Library}.
Definition fields : list field :=
  [ plain "contact" (Optional Contact.cls) [];
    plain "id" (Optional Id.cls) [];
    plain "timeframe" (Optional TimeFrame.cls) [];
    plain "comments" (Optional Str) [] ].
Definition cls : tyv := BaseModel "Customer" fields [check_required_fields].
End Cls.
End Customer.

Module Vendor.
Definition check_required_fields : validator :=
  raise_if_empty "Vendor" ["vendorname"].
Section Cls.
Context {L : Library}.
Definition vendorname : field :=
  plain "vendorname" (Optional Str) [].
Definition fields : list field :=
  [ plain "id" (Optional Id.cls) [];
    vendorname;
    plain "url" (Optional Str) [];
    plain "contact" (Optional Contact.cls) [] ].
Definition cls : tyv := BaseModel "Vendor" fields [check_required_fields].
End Cls.
End Vendor.

Module Provider.
Definition check_required_fields : validator :=
  raise_if_empty "Provider" ["name"].
Section Cls.
Context {L : Library}.
Definition name : field :=
  plain "name" (Optional Name.cls) [].
Definition fields : list field :=
  [ plain "id" (Optional Id.cls) [];
    name;
    plain "service" (Optional Str) [];
    plain "url" (Optional Str) [];
    plain "email" (Optional Email.cls) [];
    plain "phone" (Optional Phone.cls) [];
    plain "contact" (Optional Contact.cls) [] ].
Definition cls : tyv := BaseModel "Provider" fields [check_required_fields].
End Cls.
End Provider.

Module Prospect.
Section Cls.
Context {L : Library}.
Definition request_date : field :=
  aliased "request_date" "requestdate" (Optional Str) [].
Definition fields : list field :=
  [ aliased "status" "@status" (Optional Str) [];
    plain "id" (Optional Id.cls) [];
    request_date;
    plain "vehicle" (Optional (Union [Vehicle.cls; ListOf Vehicle.cls])) [];
    plain "customer" (Optional Customer.cls) [];
    plain "vendor" (Optional Vendor.cls) [];
    plain "provider" (Optional Provider.cls) [] ].
Definition cls : tyv := BaseModel "Prospect" fields [].
End Cls.
End Prospect.

Module ADF.
Section Cls.
Context {L : Library}.
Definition fields : list field := [ plain "prospect" (Optional Prospect.cls) [] ].
Definition cls : tyv := BaseModel "ADF" fields [].
End Cls.
End ADF.

Module Lead.
Section Cls.
Context {L : Library}.
Definition fields : list field := [ plain "adf" (Optional ADF.cls) [] ].
Definition cls : tyv := BaseModel "Lead" fields [].
End Cls.
End Lead.

(** ** The source: the [try] block and its handlers *)

(** What prompting for a path, opening the file and [json.load] give. *)
Inductive loaded : Type :=
| NoSuchFile
| NotJSON
| LoadFailed (text : string)
| Loaded (data : json).

(** The exceptions the [except] clauses tell apart, in clause order; the
    last clause takes every other exception with its text. *)
Inductive raised : Type :=
| FileNotFoundError
| JSONDecodeError
| ValidationError (errs : list error)
| OtherException (text : string).

(** One [print] call of the program with what it prints. *)
Inductive printed : Type :=
| Text (s : string)
| Shown (lead : value)
| Dumped (tree : json)
| Report (errs : list error).

Definition json_type_name (j : json) : string :=
  match j with
  | JNull => "NoneType"
  | JBool _ => "bool"
  | JInt _ => "int"
  | JFloat _ => "float"
  | JStr _ => "str"
  | JList _ => "list"
  | JDict _ => "dict"
  end.

Section Program.
Context {L : Library}.

(** The construction of a [Lead] from the entries of [data], passed as
    keyword arguments; anything but a mapping cannot be unpacked.  (The
    texts of Python's own exceptions vary with the interpreter; no
    statement depends on them beyond the examples that quote them.) *)
Definition new_Lead (data : json) : raised + value :=
  match data with
  | JDict _ =>
      match run Lead.cls data with
      | Ok lead => inr lead
      | Invalid errs => inl (ValidationError errs)
      | Escaped e => inl (OtherException (exn_text e))
      end
  | _ => inl (OtherException ("Lead() argument after ** must be a mapping, not "
                              ++ json_type_name data))
  end.

(** The body of the [try] block up to the construction of the record. *)
Definition try_block (file : loaded) : raised + value :=
  match file with
  | NoSuchFile => inl FileNotFoundError
  | NotJSON => inl JSONDecodeError
  | LoadFailed text => inl (OtherException text)
  | Loaded data => new_Lead data
  end.

End Program.

(** The loop of the [ValidationError] clause:
    [for error in e.errors(): if error["type"] == "value_error": ...append(error["msg"])] *)
Definition error_messages (errs : list error) : list string :=
  fold_left
    (fun messages error =>
       if String.eqb (err_type error) "value_error" then messages ++ [err_msg error]
       else messages)
    errs [].

(** The [except] clauses: what each prints. *)
Definition handler (r : raised) : list printed :=
  match r with
  | FileNotFoundError => [Text "File not found. Please provide a valid file path."]
  | JSONDecodeError => [Text "Invalid JSON format in the file."]
  | ValidationError errs =>
      match error_messages errs with
      | [] => [Report errs]
      | messages => [Text (String.concat newline messages)]
      end
  | OtherException text => [Text ("An error occurred: " ++ text)]
  end.

(** What the [try] statement prints once the file is read: the record and
    its re-flattened tree, or what the handler of the raised exception
    prints.  (The two debugging prints of the source, of the initial empty
    mapping and of the record inside [TimeFrame.validate_dates], are left
    out, and so is the import of [xmltodict1], which runs before the [try]
    statement.) *)
Definition main {L : Library} (file : loaded) : list printed :=
  match try_block file with
  | inr lead => [Shown lead; Dumped (model_dump lead)]
  | inl r => handler r
  end.

(** ** A small library to run the validators on concrete documents

    Decimal integers, binary floats (integral and of 64-bit size), dates
    written YYYY-MM-DD and a handful of country names stand in for the real
    libraries in the examples; the theorems hold for every library. *)

Definition digit_of (c : ascii) : option Z :=
  if in_range "0"%char "9"%char c then Some (Z.of_nat (nat_of_ascii c) - 48)%Z else None.

Fixpoint digits_value (acc : Z) (s : string) : option Z :=
  match s with
  | EmptyString => Some acc
  | String c rest =>
      match digit_of c with
      | Some d => digits_value (10 * acc + d)%Z rest
      | None => None
      end
  end.

Definition sample_digits (s : string) : option Z :=
  match s with
  | EmptyString => None
  | String "-"%char (String c rest) => option_map Z.opp (digits_value 0 (String c rest))
  | _ => digits_value 0 s
  end.

Definition sample_str_as_int (s : string) : Z + int_refusal :=
  match sample_digits s with
  | Some z => inl z
  | None => inr NotAnInteger
  end.

(** The integer a finite float [m * 2 ^ e] is, if it is one. *)
Definition float_integer (sign : bool) (m : positive) (e : Z) : option Z :=
  let magnitude :=
    if (0 <=? e)%Z then Some (Z.pos m * 2 ^ e)%Z
    else if (Z.pos m mod 2 ^ (- e) =? 0)%Z then Some (Z.pos m / 2 ^ (- e))%Z
    else None in
  option_map (fun z => if sign then (- z)%Z else z) magnitude.

Definition sample_float_as_int (f : spec_float) : Z + int_refusal :=
  match f with
  | S754_zero _ => inl 0%Z
  | S754_finite sign m e =>
      match float_integer sign m e with
      | Some z => if ((- 2 ^ 63 <? z) && (z <? 2 ^ 63))%Z then inl z else inr TooLarge
      | None => inr Fractional
      end
  | _ => inr NotFinite
  end.

Definition sample_date (s : string) : bool :=
  re_match_at
    [Caret; Range "0"%char "9"%char 4; Range "-"%char "-"%char 1;
     Range "0"%char "9"%char 2; Range "-"%char "-"%char 1;
     Range "0"%char "9"%char 2]
    true s
  && Nat.eqb (String.length s) 10.

Definition sample_country (s : string) : bool :=
  existsb (String.eqb s) ["CA"; "US"; "Canada"; "United States"].

#[export] Instance sample_library : Library := {
  str_as_int := sample_str_as_int;
  float_as_int := sample_float_as_int;
  fromisoformat_parses := sample_date;
  countries_lookup_finds := sample_country
}.

(** ** Vocabulary of the statements *)

(** [rejects r e]: the validation [r] does not produce a value, and when
    it ends with a list of errors, [e] is one of them. *)
Definition rejects {A : Type} (r : outcome A) (e : error) : Prop :=
  match r with
  | Ok _ => False
  | Invalid errs => In e errs
  | Escaped _ => True
  end.

(** The errors of all the fields of a record, in declaration order. *)
Definition all_errors (fs : list field) (d : list (string * json)) : list error :=
  flat_map (fun f => errors_of (validate_field f d)) fs.

(** The first field, in declaration order, whose validation lets an
    exception escape. *)
Fixpoint first_escape (fs : list field) (d : list (string * json)) : option exn :=
  match fs with
  | [] => None
  | f :: rest =>
      match validate_field f d with
      | Escaped e => Some e
      | _ => first_escape rest d
      end
  end.

(** The attributes of the fields that validate, in declaration order. *)
Definition attrs_of (fs : list field) (d : list (string * json)) : list (string * value) :=
  flat_map (fun f => match validate_field f d with
                     | Ok v => [(fname f, v)]
                     | _ => []
                     end) fs.


(** A whole-record validator that only checks: it raises or returns the
    record it was given. *)
Definition checks_only (g : validator) : Prop :=
  forall x y, g x = Return y -> y = x.

(** A type that never rejects a value without saying why: its list of
    errors is not empty. *)
Definition reports_errors (t : tyv) : Prop := forall j, run t j <> Invalid [].

(** The entry with the given keys in front of its location. *)
Definition at_path (keys : list string) (k : err_kind) : error :=
  mkError (map LKey keys) k.

(** The tags under which the two members of [Union[Vehicle, List[Vehicle]]]
    report their errors. *)
Definition vehicle_tag : string := "function-after[check_required_fields(), Vehicle]".

Definition vehicle_list_tag : string :=
  "list[function-after[check_required_fields(), Vehicle]]".


(** The value of a key is absent or [null]. *)
Definition absent_or_null (key : string) (d : list (string * json)) : Prop :=
  dict_get key d = None \/ dict_get key d = Some JNull.

(** A capital letter of the pattern's range. *)
Definition is_upper (c : ascii) : bool := in_range "A"%char "Z"%char c.

(** [needle in hay] on strings. *)
Fixpoint mentions (needle hay : string) : bool :=
  String.prefix needle hay
  || match hay with
     | EmptyString => false
     | String _ rest => mentions needle rest
     end.








(** The re-flattened tree of a document, when it validates. *)
Definition dump_of {L : Library} (data : json) : option json :=
  match run Lead.cls data with
  | Ok lead => Some (model_dump lead)
  | _ => None
  end.




(** The message of [check_required_fields] for one empty field. *)
Definition missing_message (cls fld : string) : err_kind :=
  EValueError ("The following required fields in " ++ cls ++ " are missing: " ++ fld).



(** The violation of the either/or rule of [TimeFrame]. *)
Definition either_or : error :=
  at_path []
    (EValueError "At least one of 'earliest_date' or 'latest_date' must be provided.").

(** ** Example documents *)

Definition in_prospect (entries : list (string * json)) : json :=
  JDict [("adf", JDict [("prospect", JDict entries)])].







(** A vehicle without [model]. *)
Definition no_model : list (string * json) :=
  [ ("year", JStr "2023"); ("make", JStr "Hyundai") ].


Definition complete_vehicle : list (string * json) :=
  [ ("year", JStr "2023"); ("make", JStr "Hyundai"); ("model", JStr "i30") ].


(** ** Vocabulary of the further properties *)

(** A validator that accepts exactly the listed values, returning the
    value it was given, and raises [ValueError] with [msg] on any other. *)
Definition accepts_exactly (g : validator) (allowed : list value) (msg : string) : Prop :=
  forall v, (In v allowed -> g v = Return v)
            /\ (~ In v allowed -> g v = Raise (ValueError msg)).

(** A type whose validation ends with a value or with errors, whatever
    the raw value: no exception escapes. *)
Definition never_escapes (t : tyv) : Prop := forall j, escapes (run t j) = false.

(** A validator that raises nothing but [ValueError]. *)
Definition raises_value_errors_only (g : validator) : Prop :=
  forall x e, g x = Raise e -> exists m, e = ValueError m.

(** A field of such a type with such validators. *)
Definition tame_field (f : field) : Prop :=
  never_escapes (annotation f) /\ Forall raises_value_errors_only (validators f).

(** The fields of a list that have the name of [f] are [f] itself. *)
Definition named_once (fs : list field) (f : field) : Prop :=
  forall g, In g fs -> fname g = fname f -> g = f.

(** Induction on values that reaches the items of a list and the
    attributes of a record. *)
Section ValueInduction.
Variable P : value -> Prop.
Hypothesis HNone : P VNone.
Hypothesis HStr : forall s, P (VStr s).
Hypothesis HInt : forall z, P (VInt z).
Hypothesis HList : forall items, Forall P items -> P (VList items).
Hypothesis HModel : forall cls attrs, Forall (fun kv => P (snd kv)) attrs -> P (VModel cls attrs).

Fixpoint value_induction (v : value) : P v :=
  match v with
  | VNone => HNone
  | VStr s => HStr s
  | VInt z => HInt z
  | VList items =>
      HList items
        ((fix all (l : list value) : Forall P l :=
            match l with
            | [] => Forall_nil P
            | x :: rest => Forall_cons x (value_induction x) (all rest)
            end) items)
  | VModel cls attrs =>
      HModel cls attrs
        ((fix all (l : list (string * value)) : Forall (fun kv => P (snd kv)) l :=
            match l with
            | [] => Forall_nil _
            | kv :: rest => Forall_cons kv (value_induction (snd kv)) (all rest)
            end) attrs)
  end.

End ValueInduction.

(** Fields the classes declare in line, written out for the statements
    about them. *)
Definition ColorCombination_preference {L : Library} : field :=
  plain "preference" (Optional Int) [ColorCombination.validate_preference].

Definition Address_country {L : Library} : field :=
  plain "country" (Optional Str) [Address.validate_country].

Definition Vehicle_status : field :=
  aliased "status" "@status" (Optional Str) [Vehicle.validate_status].

(** Three capital letters, alone or followed by one newline. *)
Definition three_capitals (s : string) : Prop :=
  exists a b c,
    is_upper a = true /\ is_upper b = true /\ is_upper c = true
    /\ (s = String a (String b (String c "")) \/ s = String a (String b (String c newline))).

(** A type none of whose validated values is [None]. *)
Definition never_none (t : tyv) : Prop := forall j v, run t j = Ok v -> is_None v = false.

(** What a field that takes one record or a list of records holds for a
    raw value: the string itself, the record of a mapping, or the list of
    the records of the items of a list, one for each item and in order. *)
Definition keeps_shape (rec : tyv) (j : json) (v : value) : Prop :=
  match j with
  | JStr s => v = VStr s
  | JDict _ => run rec j = Ok v
  | JList items => exists vs, v = VList vs /\ Forall2 (fun x w => run rec x = Ok w) items vs
  | _ => False
  end.

(** The record with every attribute [None]. *)
Definition blank (cls : string) (fs : list field) : value :=
  VModel cls (map (fun f => (fname f, VNone)) fs).

(** Validating the re-flattened tree of a validated record gives the
    blank record. *)
Definition redump_is_blank (t : tyv) (cls : string) (fs : list field) : Prop :=
  forall d v, run t (JDict d) = Ok v -> run t (model_dump v) = Ok (blank cls fs).

(** ** The source: the file name of [CreateJSONObject] (xmltodict1.py)

    [jfile = re.sub(".xml", "", xml_file_path) + ".json"].  The pattern is
    a regular expression: its dot stands for any character but a newline.
    Strings are read as sequences of characters with codes below 256. *)

(** [re.sub(".xml", "", s)]: from left to right, every character other
    than a newline that is followed by [xml] is dropped together with the
    three; [skip] counts the characters of a match that are still to be
    dropped. *)
Fixpoint sub_dot_xml (skip : nat) (s : string) : string :=
  match s with
  | EmptyString => EmptyString
  | String c rest =>
      match skip with
      | S k => sub_dot_xml k rest
      | O =>
          if negb (Ascii.eqb c (ascii_of_nat 10)) && String.prefix "xml" rest
          then sub_dot_xml 3 rest
          else String c (sub_dot_xml 0 rest)
      end
  end.

Definition json_file_name (xml_file_path : string) : string :=
  (sub_dot_xml 0 xml_file_path ++ ".json")%string.

(** * Facts *)

(** ** The field loop *)

Lemma validate_fields_acc (fs : list field) (d : list (string * json)) :
  forall attrs errs,
    validate_fields fs d attrs errs =
    match validate_fields fs d [] [] with
    | Ok a => match errs with [] => Ok (attrs ++ a) | _ => Invalid errs end
    | Invalid es => Invalid (errs ++ es)
    | Escaped e => Escaped e
    end.
Proof.
  induction fs as [|f rest IH]; intros attrs errs; simpl.
  - rewrite app_nil_r. reflexivity.
  - destruct (validate_field f d) as [v|es0|e]; [| |reflexivity].
    + rewrite (IH (attrs ++ [(fname f, v)]) errs), (IH [(fname f, v)] []).
      destruct (validate_fields rest d [] []) as [a|es|e]; [| |reflexivity].
      * rewrite <- app_assoc. reflexivity.
      * reflexivity.
    + rewrite (IH attrs (errs ++ es0)), (IH [] es0).
      destruct (validate_fields rest d [] []) as [a|es|e]; [| |reflexivity].
      * destruct es0 as [|e0 es0].
        -- rewrite app_nil_r. reflexivity.
        -- destruct errs; reflexivity.
      * rewrite app_assoc. reflexivity.
Qed.

(** The loop computes: the first escaping exception if a field lets one
    escape; otherwise the errors of all the fields when there are any;
    otherwise the attributes. *)
Lemma validate_fields_spec (fs : list field) (d : list (string * json)) :
  validate_fields fs d [] [] =
  match first_escape fs d with
  | Some e => Escaped e
  | None =>
      match all_errors fs d with
      | [] => Ok (attrs_of fs d)
      | es => Invalid es
      end
  end.
Proof.
  induction fs as [|f rest IH]; [reflexivity|].
  unfold all_errors, attrs_of in *. simpl.
  destruct (validate_field f d) as [v|es0|e]; [| |reflexivity].
  - rewrite (validate_fields_acc rest d [(fname f, v)] []), IH.
    destruct (first_escape rest d); [reflexivity|].
    simpl. destruct (flat_map _ rest); reflexivity.
  - rewrite (validate_fields_acc rest d [] es0), IH.
    destruct (first_escape rest d); [reflexivity|].
    simpl. destruct (flat_map (fun f0 => errors_of (validate_field f0 d)) rest) as [|e1 es1].
    + rewrite app_nil_r. destruct es0; reflexivity.
    + destruct es0; reflexivity.
Qed.

Lemma first_escape_none (fs : list field) (d : list (string * json)) (f : field) :
  first_escape fs d = None -> In f fs -> escapes (validate_field f d) = false.
Proof.
  induction fs as [|g rest IH]; simpl; [tauto|].
  intros Hnone [->|Hin].
  - destruct (validate_field f d); [reflexivity|reflexivity|discriminate].
  - destruct (validate_field g d); auto; discriminate.
Qed.

Lemma rejects_not_ok {A : Type} (r : outcome A) (e : error) :
  rejects r e -> is_ok r = false.
Proof. destruct r; simpl; [tauto|reflexivity|reflexivity]. Qed.


(** A rejected field rejects the mapping it belongs to, with the same
    error: the loop does not lose an error. *)
Lemma fields_reject (fs : list field) (d : list (string * json)) (f : field) (e : error) :
  In f fs -> rejects (validate_field f d) e -> rejects (validate_fields fs d [] []) e.
Proof.
  intros Hin Hrej. rewrite validate_fields_spec.
  destruct (first_escape fs d) eqn:Hesc; [exact I|].
  pose proof (first_escape_none fs d f Hesc Hin) as Hf.
  assert (Hall : In e (all_errors fs d)).
  { unfold all_errors. apply in_flat_map. exists f. split; [exact Hin|].
    destruct (validate_field f d); simpl in *; [tauto|exact Hrej|discriminate]. }
  destruct (all_errors fs d); [destruct Hall|exact Hall].
Qed.

Lemma model_rejects (cls : string) (fs : list field) (after : list validator)
    (d : list (string * json)) (f : field) (e : error) :
  In f fs -> rejects (validate_field f d) e ->
  rejects (run (BaseModel cls fs after) (JDict d)) e.
Proof.
  intros Hin Hrej. simpl.
  pose proof (fields_reject fs d f e Hin Hrej) as H.
  destruct (validate_fields fs d [] []); simpl in *; [tauto|exact H|exact I].
Qed.

(** The outcome of a record: with no escaping field, the errors of all
    its fields, and the whole-record validators only when there are none. *)
Lemma model_outcome (cls : string) (fs : list field) (after : list validator)
    (d : list (string * json)) :
  first_escape fs d = None ->
  run (BaseModel cls fs after) (JDict d) =
  match all_errors fs d with
  | [] => apply_validators after (VModel cls (attrs_of fs d))
  | es => Invalid es
  end.
Proof.
  intros Hesc. simpl. rewrite validate_fields_spec, Hesc.
  destruct (all_errors fs d); reflexivity.
Qed.

Lemma model_escapes (cls : string) (fs : list field) (after : list validator)
    (d : list (string * json)) (e : exn) :
  first_escape fs d = Some e ->
  run (BaseModel cls fs after) (JDict d) = Escaped e.
Proof.
  intros Hesc. simpl. rewrite validate_fields_spec, Hesc. reflexivity.
Qed.




(** ** Integer fields *)

Lemma validate_int_not_null {L : Library} (raw : json) (z : Z) :
  validate_int raw = Ok z -> raw <> JNull.
Proof. intros H ->. discriminate H. Qed.

Lemma optional_not_null (t : tyv) (raw : json) :
  raw <> JNull -> run (Optional t) raw = run t raw.
Proof. destruct raw; simpl; congruence. Qed.

(** A field that is absent takes its default and is not validated. *)
Lemma absent_field_takes_default (f : field) (d : list (string * json)) (v : value) :
  dict_get (fkey f) d = None -> default f = Some v -> validate_field f d = Ok v.
Proof. intros Hd Hv. unfold validate_field. rewrite Hd, Hv. reflexivity. Qed.

(** C10: the sequence of an Id (key [@sequence]) is optional, and a
    supplied value that is or coerces to an integer is accepted exactly
    when it is strictly positive: zero and negative values are rejected
    with a [greater_than] error, both for the field and for the record; a
    supplied value that is no integer is rejected with the integer
    validation's errors. *)
Theorem sequence_must_be_positive {L : Library} (d : list (string * json)) :
  (absent_or_null "@sequence" d -> validate_field Id.sequence d = Ok VNone)
  /\ (forall raw z,
        dict_get "@sequence" d = Some raw -> validate_int raw = Ok z ->
        ((0 < z)%Z -> validate_field Id.sequence d = Ok (VInt z))
        /\ ((z <= 0)%Z ->
            validate_field Id.sequence d = Invalid [at_path ["@sequence"] (EGreaterThan 0)]
            /\ rejects (run Id.cls (JDict d)) (at_path ["@sequence"] (EGreaterThan 0))))
  /\ (forall raw es,
        dict_get "@sequence" d = Some raw -> raw <> JNull -> validate_int raw = Invalid es ->
        validate_field Id.sequence d = Invalid (map (push (LKey "@sequence")) es))
  /\ (forall z, (0 < z)%Z ->
        run Id.cls (JDict [("@sequence", JInt z)])
        = Ok (VModel "Id" [("sequence", VInt z); ("source", VNone)])).
Proof.
  split; [|split; [|split]].
  - intros [Habs|Hnull]; unfold validate_field; cbn; rewrite ?Habs, ?Hnull; reflexivity.
  - intros raw z Hget Hint.
    assert (Hf : validate_field Id.sequence d
                 = if (0 <? z)%Z then Ok (VInt z)
                   else Invalid [at_path ["@sequence"] (EGreaterThan 0)]).
    { unfold validate_field. cbn [Id.sequence aliased fkey falias fname annotation validators].
      rewrite Hget, (optional_not_null _ _ (validate_int_not_null raw z Hint)).
      cbn [run PositiveInt]. rewrite Hint.
      destruct (0 <? z)%Z; reflexivity. }
    split; intros Hz.
    + rewrite Hf. apply Z.ltb_lt in Hz. rewrite Hz. reflexivity.
    + assert (Hz' : (0 <? z)%Z = false) by (apply Z.ltb_ge; exact Hz).
      rewrite Hz' in Hf. split; [exact Hf|].
      apply (model_rejects "Id" Id.fields [] d Id.sequence).
      * left. reflexivity.
      * rewrite Hf. left. reflexivity.
  - intros raw es Hget Hnull Hint. unfold validate_field.
    cbn [Id.sequence aliased fkey falias fname annotation validators].
    rewrite Hget, (optional_not_null _ _ Hnull).
    cbn [run PositiveInt]. rewrite Hint. reflexivity.
  - intros z Hz. apply Z.ltb_lt in Hz. cbn. rewrite Hz. reflexivity.
Qed.

Lemma sequence_must_be_positive_witness :
  validate_field Id.sequence [("@sequence", JStr "1")] = Ok (VInt 1)
  /\ validate_field Id.sequence [("@sequence", JInt 0)]
     = Invalid [at_path ["@sequence"] (EGreaterThan 0)]
  /\ validate_field Id.sequence [("@source", JStr "ABC")] = Ok VNone.
Proof.
  split; [|split].
  - apply (proj1 (proj2 (@sequence_must_be_positive sample_library [("@sequence", JStr "1")]))
             (JStr "1") 1%Z); [reflexivity|reflexivity|lia].
  - apply (proj1 (proj2 (@sequence_must_be_positive sample_library [("@sequence", JInt 0)]))
             (JInt 0) 0%Z); [reflexivity|reflexivity|lia].
  - apply (proj1 (@sequence_must_be_positive sample_library [("@source", JStr "ABC")])).
    left. reflexivity.
Defined.

(** The comparison of [validate_weighting] on an integer. *)
Lemma validate_weighting_int (z : Z) :
  Option.validate_weighting (VInt z) =
  if ((z >=? 100) || (z <=? -100))%Z
  then Raise (ValueError "Invalid Weighting input")
  else Return (VInt z).
Proof.
  unfold Option.validate_weighting. cbn [call]. simpl.
  destruct (z >=? 100)%Z; simpl; [reflexivity|].
  destruct (z <=? -100)%Z; reflexivity.
Qed.

(** C8: a weighting that is (or coerces to) an integer strictly between
    -100 and 100 is accepted; at or beyond either bound the field is
    rejected with the weighting message, and so is the record. *)
Theorem weighting_open_interval {L : Library} (d : list (string * json)) (raw : json) (z : Z) :
  dict_get "weighting" d = Some raw -> validate_int raw = Ok z ->
  ((-100 < z < 100)%Z -> validate_field Option.weighting d = Ok (VInt z))
  /\ ((z <= -100 \/ 100 <= z)%Z ->
      validate_field Option.weighting d
      = Invalid [at_path ["weighting"] (EValueError "Invalid Weighting input")]
      /\ rejects (run Option.cls (JDict d))
                 (at_path ["weighting"] (EValueError "Invalid Weighting input"))).
Proof.
  intros Hget Hint.
  assert (Hf : validate_field Option.weighting d
               = if ((z >=? 100) || (z <=? -100))%Z
                 then Invalid [at_path ["weighting"] (EValueError "Invalid Weighting input")]
                 else Ok (VInt z)).
  { unfold validate_field.
    cbn [Option.weighting plain fkey falias fname annotation validators].
    rewrite Hget, (optional_not_null _ _ (validate_int_not_null raw z Hint)).
    cbn [run Int]. rewrite Hint. cbn [apply_validators].
    rewrite validate_weighting_int.
    destruct ((z >=? 100) || (z <=? -100))%Z; reflexivity. }
  split; intros Hz.
  - rewrite Hf.
    rewrite Z.geb_leb.
    replace (100 <=? z)%Z with false by (symmetry; apply Z.leb_gt; lia).
    replace (z <=? -100)%Z with false by (symmetry; apply Z.leb_gt; lia).
    reflexivity.
  - assert (Hout : ((z >=? 100) || (z <=? -100))%Z = true).
    { apply orb_true_iff. destruct Hz as [Hlo|Hhi].
      - right. apply Z.leb_le. exact Hlo.
      - left. rewrite Z.geb_leb. apply Z.leb_le. exact Hhi. }
    rewrite Hout in Hf. split; [exact Hf|].
    apply (model_rejects "Option" Option.fields [] d Option.weighting).
    + cbn. tauto.
    + rewrite Hf. left. reflexivity.
Qed.

Lemma weighting_open_interval_witness :
  validate_field Option.weighting [("weighting", JInt 99)] = Ok (VInt 99)
  /\ validate_field Option.weighting [("weighting", JStr "-99")] = Ok (VInt (-99))
  /\ rejects (run Option.cls (JDict [("weighting", JInt 100)]))
             (at_path ["weighting"] (EValueError "Invalid Weighting input"))
  /\ rejects (run Option.cls (JDict [("weighting", JInt (-100))]))
             (at_path ["weighting"] (EValueError "Invalid Weighting input"))
  /\ rejects (run Option.cls (JDict [("weighting", JInt 150)]))
             (at_path ["weighting"] (EValueError "Invalid Weighting input")).
Proof.
  split; [|split; [|split; [|split]]].
  - apply (proj1 (@weighting_open_interval sample_library
                    [("weighting", JInt 99)] (JInt 99) 99 eq_refl eq_refl)); lia.
  - apply (proj1 (@weighting_open_interval sample_library
                    [("weighting", JStr "-99")] (JStr "-99") (-99) eq_refl eq_refl)); lia.
  - apply (proj2 (@weighting_open_interval sample_library
                    [("weighting", JInt 100)] (JInt 100) 100 eq_refl eq_refl)); lia.
  - apply (proj2 (@weighting_open_interval sample_library
                    [("weighting", JInt (-100))] (JInt (-100)) (-100) eq_refl eq_refl)); lia.
  - apply (proj2 (@weighting_open_interval sample_library
                    [("weighting", JInt 150)] (JInt 150) 150 eq_refl eq_refl)); lia.
Defined.

(** ** Where errors are located *)

(** Every error of a field is reported under the field's key. *)
Lemma field_errors_loc (f : field) (d : list (string * json)) (e : error) :
  In e (errors_of (validate_field f d)) -> exists l, loc e = LKey (fkey f) :: l.
Proof.
  unfold validate_field. destruct (dict_get (fkey f) d) as [raw|].
  - destruct (run (annotation f) raw) as [v|es|x]; simpl.
    + destruct (apply_validators (validators f) v) as [v'|es|x]; simpl; try tauto.
      intros Hin. apply in_map_iff in Hin. destruct Hin as [e0 [<- _]].
      exists (loc e0). reflexivity.
    + intros Hin. apply in_map_iff in Hin. destruct Hin as [e0 [<- _]].
      exists (loc e0). reflexivity.
    + tauto.
  - destruct (default f); simpl; [tauto|].
    intros [<-|[]]. exists []. reflexivity.
Qed.

Lemma all_errors_loc (fs : list field) (d : list (string * json)) (e : error) :
  In e (all_errors fs d) -> loc e <> [].
Proof.
  unfold all_errors. intros Hin. apply in_flat_map in Hin.
  destruct Hin as [f [_ Hf]]. destruct (field_errors_loc f d e Hf) as [l Hl].
  rewrite Hl. discriminate.
Qed.

(** ** TimeFrame *)

Section TimeFrameFacts.
Context {L : Library}.

(** What each date field does with its entry. *)
Lemma earliest_date_outcome (d : list (string * json)) :
  validate_field TimeFrame.earliest_date d =
  match dict_get "earliest_date" d with
  | None => Ok VNone
  | Some JNull => Escaped (TypeError "fromisoformat: argument must be str")
  | Some (JStr s) =>
      if fromisoformat_parses s then Ok (VStr s)
      else Invalid [at_path ["earliest_date"] (EValueError "Invalid Earliest Date input")]
  | Some _ => Invalid [at_path ["earliest_date"] EStringType]
  end.
Proof.
  unfold validate_field.
  cbn [TimeFrame.earliest_date plain fkey falias fname annotation validators default].
  destruct (dict_get "earliest_date" d) as [raw|]; [|reflexivity].
  destruct raw; try reflexivity.
  cbn. unfold TimeFrame.validate_earliest_date, is_iso8601. cbn [call]. cbn.
  destruct (fromisoformat_parses s); reflexivity.
Qed.

Lemma latest_date_outcome (d : list (string * json)) :
  validate_field TimeFrame.latest_date d =
  match dict_get "latest_date" d with
  | None => Ok VNone
  | Some JNull => Escaped (TypeError "fromisoformat: argument must be str")
  | Some (JStr s) =>
      if fromisoformat_parses s then Ok (VStr s)
      else Invalid [at_path ["latest_date"] (EValueError "Invalid Latest Date input")]
  | Some _ => Invalid [at_path ["latest_date"] EStringType]
  end.
Proof.
  unfold validate_field.
  cbn [TimeFrame.latest_date plain fkey falias fname annotation validators default].
  destruct (dict_get "latest_date" d) as [raw|]; [|reflexivity].
  destruct raw; try reflexivity.
  cbn. unfold TimeFrame.validate_latest_date, is_iso8601. cbn [call]. cbn.
  destruct (fromisoformat_parses s); reflexivity.
Qed.

(** [validate_dates] on a record: it raises exactly when both dates are
    [None]. *)
Lemma validate_dates_spec (cls : string) (attrs : list (string * value)) (e l : value) :
  dict_get "earliest_date" attrs = Some e ->
  dict_get "latest_date" attrs = Some l ->
  TimeFrame.validate_dates (VModel cls attrs) =
  if is_None e && is_None l
  then Raise (ValueError "At least one of 'earliest_date' or 'latest_date' must be provided.")
  else Return (VModel cls attrs).
Proof.
  intros He Hl. unfold TimeFrame.validate_dates, py_getattr, getattr. cbn [call].
  rewrite He. cbn [py_bind]. destruct (is_None e); [|reflexivity].
  rewrite Hl. cbn [py_bind]. destruct (is_None l); reflexivity.
Qed.

(** The attributes the loop assembles for a TimeFrame whose dates
    validate. *)
Lemma timeframe_attrs (d : list (string * json)) (e l : value) :
  validate_field TimeFrame.earliest_date d = Ok e ->
  validate_field TimeFrame.latest_date d = Ok l ->
  dict_get "earliest_date" (attrs_of TimeFrame.fields d) = Some e
  /\ dict_get "latest_date" (attrs_of TimeFrame.fields d) = Some l.
Proof.
  intros He Hl. unfold attrs_of, TimeFrame.fields. cbn [flat_map].
  rewrite He, Hl.
  destruct (validate_field (plain "description" (Optional Str) []) d); split; reflexivity.
Qed.

Lemma timeframe_outcome_when_dates_validate (d : list (string * json)) (e l : value) :
  validate_field TimeFrame.earliest_date d = Ok e ->
  validate_field TimeFrame.latest_date d = Ok l ->
  all_errors TimeFrame.fields d = [] ->
  first_escape TimeFrame.fields d = None ->
  run TimeFrame.cls (JDict d) =
  if is_None e && is_None l then Invalid [either_or]
  else Ok (VModel "TimeFrame" (attrs_of TimeFrame.fields d)).
Proof.
  intros He Hl Hall Hesc.
  unfold TimeFrame.cls. rewrite (model_outcome _ _ _ _ Hesc), Hall.
  destruct (timeframe_attrs d e l He Hl) as [Ae Al].
  cbn [apply_validators]. rewrite (validate_dates_spec _ _ e l Ae Al).
  destruct (is_None e && is_None l); reflexivity.
Qed.

Lemma description_never_escapes (d : list (string * json)) :
  escapes (validate_field (plain "description" (Optional Str) []) d) = false.
Proof.
  unfold validate_field. cbn [plain fkey falias fname annotation validators default].
  destruct (dict_get "description" d) as [raw|]; [|reflexivity].
  destruct raw; reflexivity.
Qed.

Lemma timeframe_first_escape (d : list (string * json)) :
  escapes (validate_field TimeFrame.earliest_date d) = false ->
  escapes (validate_field TimeFrame.latest_date d) = false ->
  first_escape TimeFrame.fields d = None.
Proof.
  intros He Hl. unfold TimeFrame.fields. cbn [first_escape].
  pose proof (description_never_escapes d) as Hd.
  destruct (validate_field (plain "description" (Optional Str) []) d); try discriminate;
  destruct (validate_field TimeFrame.earliest_date d); try discriminate;
  destruct (validate_field TimeFrame.latest_date d); try discriminate; reflexivity.
Qed.

End TimeFrameFacts.

Lemma all_errors_nil (fs : list field) (d : list (string * json)) (f : field) :
  all_errors fs d = [] -> In f fs -> errors_of (validate_field f d) = [].
Proof.
  unfold all_errors. induction fs as [|g rest IH]; simpl; [tauto|].
  intros Hnil Hin. apply app_eq_nil in Hnil. destruct Hnil as [Hg Hrest].
  destruct Hin as [->|Hin]; [exact Hg|apply IH; assumption].
Qed.

(** A date field that neither escapes nor is rejected holds [None] (key
    absent) or the string that was supplied. *)
Lemma date_field_ok {L : Library} (f : field) (d : list (string * json)) :
  In f TimeFrame.fields ->
  first_escape TimeFrame.fields d = None ->
  all_errors TimeFrame.fields d = [] ->
  (f = TimeFrame.earliest_date \/ f = TimeFrame.latest_date) ->
  exists v, validate_field f d = Ok v
            /\ (forall s, dict_get (fkey f) d = Some (JStr s) -> v = VStr s).
Proof.
  intros Hin Hesc Hall Hf.
  pose proof (first_escape_none _ _ _ Hesc Hin) as Hne.
  pose proof (all_errors_nil _ _ _ Hall Hin) as Hnil.
  destruct Hf as [-> | ->].
  - rewrite earliest_date_outcome in *. cbn [fkey falias fname TimeFrame.earliest_date plain].
    destruct (dict_get "earliest_date" d) as [raw|];
      [|exists VNone; split; [reflexivity|discriminate]].
    destruct raw; try discriminate.
    destruct (fromisoformat_parses s); [|discriminate].
    exists (VStr s). split; [reflexivity|]. intros s' Hs'. congruence.
  - rewrite latest_date_outcome in *. cbn [fkey falias fname TimeFrame.latest_date plain].
    destruct (dict_get "latest_date" d) as [raw|];
      [|exists VNone; split; [reflexivity|discriminate]].
    destruct raw; try discriminate.
    destruct (fromisoformat_parses s); [|discriminate].
    exists (VStr s). split; [reflexivity|]. intros s' Hs'. congruence.
Qed.

(** C6: a TimeFrame whose two dates are both null does not validate: with
    both keys absent the record is assembled and the whole-record validator
    rejects it with the either/or message (an explicit null makes the date
    validator raise before that); and when one of the dates is a string
    that parses, the either/or violation is never among the errors.  The
    whole-record validator itself raises exactly on a record whose two
    dates are both [None]. *)
Theorem timeframe_needs_a_date {L : Library} (d : list (string * json)) :
  (absent_or_null "earliest_date" d -> absent_or_null "latest_date" d ->
   is_ok (run TimeFrame.cls (JDict d)) = false)
  /\ (dict_get "earliest_date" d = None -> dict_get "latest_date" d = None ->
      all_errors TimeFrame.fields d = [] ->
      run TimeFrame.cls (JDict d) = Invalid [either_or])
  /\ (forall s, fromisoformat_parses s = true ->
      dict_get "earliest_date" d = Some (JStr s) \/ dict_get "latest_date" d = Some (JStr s) ->
      ~ In either_or (errors_of (run TimeFrame.cls (JDict d))))
  /\ (forall cls attrs e l,
      dict_get "earliest_date" attrs = Some e -> dict_get "latest_date" attrs = Some l ->
      TimeFrame.validate_dates (VModel cls attrs) =
      if is_None e && is_None l
      then Raise (ValueError "At least one of 'earliest_date' or 'latest_date' must be provided.")
      else Return (VModel cls attrs)).
Proof.
  assert (Hboth : dict_get "earliest_date" d = None -> dict_get "latest_date" d = None ->
                  first_escape TimeFrame.fields d = None
                  /\ (all_errors TimeFrame.fields d = [] ->
                      run TimeFrame.cls (JDict d) = Invalid [either_or])).
  { intros He Hl.
    assert (Ve : validate_field TimeFrame.earliest_date d = Ok VNone)
      by (rewrite earliest_date_outcome, He; reflexivity).
    assert (Vl : validate_field TimeFrame.latest_date d = Ok VNone)
      by (rewrite latest_date_outcome, Hl; reflexivity).
    assert (Hesc : first_escape TimeFrame.fields d = None)
      by (apply timeframe_first_escape; [rewrite Ve|rewrite Vl]; reflexivity).
    split; [exact Hesc|]. intros Hall.
    rewrite (timeframe_outcome_when_dates_validate d VNone VNone Ve Vl Hall Hesc).
    reflexivity. }
  split; [|split; [|split]].
  - intros [He|He] [Hl|Hl].
    + destruct (Hboth He Hl) as [Hesc Hrun].
      destruct (all_errors TimeFrame.fields d) eqn:Hall.
      * rewrite (Hrun eq_refl). reflexivity.
      * unfold TimeFrame.cls. rewrite (model_outcome _ _ _ _ Hesc), Hall. reflexivity.
    + apply (rejects_not_ok _ either_or).
      apply (model_rejects "TimeFrame" TimeFrame.fields _ d TimeFrame.latest_date).
      * cbn. tauto.
      * rewrite latest_date_outcome, Hl. exact I.
    + apply (rejects_not_ok _ either_or).
      apply (model_rejects "TimeFrame" TimeFrame.fields _ d TimeFrame.earliest_date).
      * cbn. tauto.
      * rewrite earliest_date_outcome, He. exact I.
    + apply (rejects_not_ok _ either_or).
      apply (model_rejects "TimeFrame" TimeFrame.fields _ d TimeFrame.earliest_date).
      * cbn. tauto.
      * rewrite earliest_date_outcome, He. exact I.
  - intros He Hl. exact (proj2 (Hboth He Hl)).
  - intros s Hs Hd.
    destruct (first_escape TimeFrame.fields d) as [x|] eqn:Hesc.
    { unfold TimeFrame.cls. rewrite (model_escapes _ _ _ _ x Hesc). simpl. tauto. }
    destruct (all_errors TimeFrame.fields d) as [|e0 es] eqn:Hall.
    2:{ unfold TimeFrame.cls. rewrite (model_outcome _ _ _ _ Hesc), Hall.
        cbn [errors_of]. rewrite <- Hall. intros Hin.
        apply all_errors_loc in Hin. apply Hin. reflexivity. }
    destruct (date_field_ok TimeFrame.earliest_date d) as [e [Ve Se]];
      [cbn; tauto|exact Hesc|exact Hall|left; reflexivity|].
    destruct (date_field_ok TimeFrame.latest_date d) as [l [Vl Sl]];
      [cbn; tauto|exact Hesc|exact Hall|right; reflexivity|].
    rewrite (timeframe_outcome_when_dates_validate d e l Ve Vl Hall Hesc).
    assert (Hsome : is_None e && is_None l = false).
    { destruct Hd as [Hd|Hd].
      - rewrite (Se s Hd). reflexivity.
      - rewrite (Sl s Hd). apply andb_false_r. }
    rewrite Hsome. simpl. tauto.
  - intros cls attrs e l. apply validate_dates_spec.
Qed.

Lemma timeframe_needs_a_date_witness :
  is_ok (run TimeFrame.cls (JDict [("earliest_date", JNull); ("description", JStr "soon")]))
  = false
  /\ run TimeFrame.cls (JDict [("description", JStr "soon")]) = Invalid [either_or]
  /\ ~ In either_or
       (errors_of (run TimeFrame.cls
                     (JDict [("description", JInt 3); ("latest_date", JStr "2024-01-31")]))).
Proof.
  split; [|split].
  - apply (proj1 (@timeframe_needs_a_date sample_library
                    [("earliest_date", JNull); ("description", JStr "soon")])).
    + right. reflexivity.
    + left. reflexivity.
  - apply (proj1 (proj2 (@timeframe_needs_a_date sample_library
                           [("description", JStr "soon")]))); reflexivity.
  - apply (proj1 (proj2 (proj2 (@timeframe_needs_a_date sample_library
                    [("description", JInt 3); ("latest_date", JStr "2024-01-31")])))
             "2024-01-31").
    + reflexivity.
    + right. reflexivity.
Defined.

(** C7 (as the code has it): the two dates of a TimeFrame are checked -- a
    string that does not parse is rejected with the field's date message,
    for the field and for the record, and a value that is neither null nor
    a string is rejected as not a string -- while the request date of a
    Prospect carries no date check and keeps any string. *)
Theorem timeframe_dates_must_parse {L : Library} (d : list (string * json)) (s : string) :
  fromisoformat_parses s = false ->
  (dict_get "earliest_date" d = Some (JStr s) ->
   validate_field TimeFrame.earliest_date d
   = Invalid [at_path ["earliest_date"] (EValueError "Invalid Earliest Date input")]
   /\ rejects (run TimeFrame.cls (JDict d))
              (at_path ["earliest_date"] (EValueError "Invalid Earliest Date input")))
  /\ (dict_get "latest_date" d = Some (JStr s) ->
      validate_field TimeFrame.latest_date d
      = Invalid [at_path ["latest_date"] (EValueError "Invalid Latest Date input")]
      /\ rejects (run TimeFrame.cls (JDict d))
                 (at_path ["latest_date"] (EValueError "Invalid Latest Date input")))
  /\ (forall raw, raw <> JNull -> (forall s', raw <> JStr s') ->
      (dict_get "earliest_date" d = Some raw ->
       validate_field TimeFrame.earliest_date d = Invalid [at_path ["earliest_date"] EStringType])
      /\ (dict_get "latest_date" d = Some raw ->
          validate_field TimeFrame.latest_date d = Invalid [at_path ["latest_date"] EStringType]))
  /\ (dict_get "requestdate" d = Some (JStr s) ->
      validate_field Prospect.request_date d = Ok (VStr s)).
Proof.
  intros Hs. split; [|split; [|split]].
  - intros Hd.
    assert (Hf : validate_field TimeFrame.earliest_date d
                 = Invalid [at_path ["earliest_date"]
                              (EValueError "Invalid Earliest Date input")])
      by (rewrite earliest_date_outcome, Hd, Hs; reflexivity).
    split; [exact Hf|].
    apply (model_rejects "TimeFrame" TimeFrame.fields _ d TimeFrame.earliest_date).
    + cbn. tauto.
    + rewrite Hf. left. reflexivity.
  - intros Hd.
    assert (Hf : validate_field TimeFrame.latest_date d
                 = Invalid [at_path ["latest_date"]
                              (EValueError "Invalid Latest Date input")])
      by (rewrite latest_date_outcome, Hd, Hs; reflexivity).
    split; [exact Hf|].
    apply (model_rejects "TimeFrame" TimeFrame.fields _ d TimeFrame.latest_date).
    + cbn. tauto.
    + rewrite Hf. left. reflexivity.
  - intros raw Hnull Hstr. split; intros Hd.
    + rewrite earliest_date_outcome, Hd.
      destruct raw; try reflexivity; [congruence|exfalso; apply (Hstr s0); reflexivity].
    + rewrite latest_date_outcome, Hd.
      destruct raw; try reflexivity; [congruence|exfalso; apply (Hstr s0); reflexivity].
  - intros Hd. unfold validate_field.
    cbn [Prospect.request_date aliased fkey falias fname annotation validators].
    rewrite Hd. reflexivity.
Qed.

Lemma timeframe_dates_must_parse_witness :
  rejects (run TimeFrame.cls (JDict [("earliest_date", JStr "next tuesday")]))
          (at_path ["earliest_date"] (EValueError "Invalid Earliest Date input"))
  /\ validate_field Prospect.request_date [("requestdate", JStr "next tuesday")]
     = Ok (VStr "next tuesday").
Proof.
  split.
  - apply (proj1 (@timeframe_dates_must_parse sample_library
                    [("earliest_date", JStr "next tuesday")] "next tuesday" eq_refl)).
    reflexivity.
  - apply (proj2 (proj2 (proj2 (@timeframe_dates_must_parse sample_library
                    [("requestdate", JStr "next tuesday")] "next tuesday" eq_refl)))).
    reflexivity.
Defined.

(** C7, the claim as written fails on the request date: a document whose
    [requestdate] is not a date validates, whatever the date library is, and
    the sample date parser rejects that string. *)
Lemma request_date_is_not_checked :
  (forall L : Library,
     dump_of (in_prospect [("requestdate", JStr "next tuesday")])
     = Some (in_prospect
               [ ("status", JNull); ("id", JNull); ("request_date", JStr "next tuesday");
                 ("vehicle", JNull); ("customer", JNull); ("vendor", JNull);
                 ("provider", JNull) ]))
  /\ @fromisoformat_parses sample_library "next tuesday" = false.
Proof. split; [intros L; reflexivity|reflexivity]. Qed.

(** ** Currency codes *)

(** What the pattern accepts: three capital letters, and the same followed
    by one newline. *)
Lemma currency_code_shape (s : string) :
  is_valid_currency_code (VStr s) = Return true <->
  exists a b c,
    is_upper a = true /\ is_upper b = true /\ is_upper c = true
    /\ (s = String a (String b (String c "")) \/ s = String a (String b (String c newline))).
Proof.
  unfold is_valid_currency_code, re_match, currency_pattern. cbn [re_match_at].
  split.
  - intros H. injection H as H.
    destruct s as [|a [|b [|c rest]]]; cbn in H; try discriminate.
    + destruct (in_range "A" "Z" a); discriminate.
    + destruct (in_range "A" "Z" a); [|discriminate].
      destruct (in_range "A" "Z" b); discriminate.
    + destruct (in_range "A" "Z" a) eqn:Ha; [|discriminate].
      destruct (in_range "A" "Z" b) eqn:Hb; [|discriminate].
      destruct (in_range "A" "Z" c) eqn:Hc; [|discriminate].
      exists a, b, c. repeat split; try assumption.
      rewrite andb_true_r in H. apply orb_true_iff in H.
      destruct H as [H|H]; apply String.eqb_eq in H; subst rest; auto.
  - intros [a [b [c [Ha [Hb [Hc Hs]]]]]]. unfold is_upper in *.
    destruct Hs as [-> | ->]; cbn; rewrite Ha, Hb, Hc; reflexivity.
Qed.

(** A currency field that is read from the mapping: accepted exactly when
    the pattern matches. *)
Lemma currency_field_outcome (name key : string) (check : validator)
    (d : list (string * json)) (s : string) :
  check = Price.validate_currency ->
  dict_get key d = Some (JStr s) ->
  validate_field (aliased name key (Optional Str) [check]) d =
  if re_match_at currency_pattern true s then Ok (VStr s)
  else Invalid [at_path [key] (EValueError "Invalid Currency input")].
Proof.
  intros -> Hd. unfold validate_field.
  cbn [aliased fkey falias fname annotation validators]. rewrite Hd.
  cbn -[re_match_at]. destruct (re_match_at currency_pattern true s); reflexivity.
Qed.

(** C4, where the code departs from the claim: a code followed by a
    newline passes the pattern; [Price] reads its currency from the key
    [@curreny], so a currency supplied under [@currency] is not checked,
    while [Amount] and [Balance] check that key. *)
Theorem currency_check_gaps :
  is_valid_currency_code (VStr (String "U" (String "S" (String "D" newline)))) = Return true
  /\ (forall L : Library,
        run Price.cls (JDict [("@currency", JStr "usd")])
        = Ok (VModel "Price"
                [ ("type", VNone); ("currency", VNone); ("delta", VNone);
                  ("relative_to", VNone); ("source", VNone); ("price", VNone) ]))
  /\ (forall L : Library,
        run Amount.cls (JDict [("@currency", JStr "usd")])
        = Invalid [at_path ["@currency"] (EValueError "Invalid Currency input")])
  /\ (forall L : Library,
        run Balance.cls (JDict [("@currency", JStr "usd")])
        = Invalid [at_path ["@currency"] (EValueError "Invalid Currency input")])
  /\ (forall L : Library,
        dump_of (in_prospect
                   [("vehicle", JDict (complete_vehicle
                                        ++ [("price", JDict [("@currency", JStr "usd")])]))])
        <> None).
Proof.
  split; [reflexivity|].
  split; [intros L; reflexivity|].
  split; [intros L; reflexivity|].
  split; [intros L; reflexivity|].
  intros L. vm_compute. discriminate.
Qed.

(** ** Null in a constrained optional field *)

(** The enumerated validators list [None] among the allowed values. *)
Lemma one_of_none (name : string) (allowed : list value) (msg : string) :
  In VNone allowed -> one_of name allowed msg VNone = Return VNone.
Proof.
  intros Hin. unfold one_of, py_in. cbn [call].
  assert (H : existsb (value_eqb VNone) allowed = true).
  { apply existsb_exists. exists VNone. split; [exact Hin|reflexivity]. }
  rewrite H. reflexivity.
Qed.

(** C5, where the code departs from the claim: an explicit null in a
    range, currency or date field reaches a validator that compares or
    matches it, and the exception ends the run, while the enumerated fields
    accept null. *)
Theorem null_in_constrained_field :
  (forall L : Library,
     main (Loaded (in_prospect
                     [("vehicle", JDict (complete_vehicle
                                          ++ [("option", JDict [("weighting", JNull)])]))]))
     = [Text "An error occurred: '>=' not supported between instances of 'NoneType' and 'int'"])
  /\ (forall L : Library,
        validate_field Option.weighting [("weighting", JNull)]
        = Escaped (TypeError "'>=' not supported between instances of 'NoneType' and 'int'"))
  /\ (forall L : Library,
        run ColorCombination.cls (JDict [("preference", JNull)])
        = Escaped (TypeError "'<' not supported between instances of 'NoneType' and 'int'"))
  /\ (forall L : Library,
        validate_field Amount.currency [("@currency", JNull)]
        = Escaped (TypeError "expected string or bytes-like object, got 'NoneType'"))
  /\ (forall L : Library,
        validate_field TimeFrame.latest_date [("latest_date", JNull)]
        = Escaped (TypeError "fromisoformat: argument must be str"))
  /\ (forall L : Library,
        run Odometer.cls (JDict [("@status", JNull); ("@units", JNull)])
        = Ok (VModel "Odometer" [("status", VNone); ("units", VNone); ("odometer", VNone)])).
Proof.
  repeat (split; [intros L; reflexivity|]). intros L; reflexivity.
Qed.

(** ** The handlers *)









(** ** Lists *)



(** ** Validations that let no exception escape *)

Lemma never_escapes_Str : never_escapes Str.
Proof. intros j. destruct j; reflexivity. Qed.

Lemma validate_int_never_escapes {L : Library} (j : json) : escapes (validate_int j) = false.
Proof.
  destruct j; simpl; try reflexivity.
  - destruct (float_as_int f); reflexivity.
  - destruct (str_as_int s); reflexivity.
Qed.

Lemma never_escapes_Int {L : Library} : never_escapes Int.
Proof.
  intros j. pose proof (validate_int_never_escapes j) as H. cbn [run Int].
  destruct (validate_int j); [reflexivity|reflexivity|discriminate H].
Qed.

Lemma never_escapes_PositiveInt {L : Library} : never_escapes PositiveInt.
Proof.
  intros j. pose proof (validate_int_never_escapes j) as H. cbn [run PositiveInt].
  destruct (validate_int j) as [z| |]; [|reflexivity|discriminate H].
  destruct (0 <? z)%Z; reflexivity.
Qed.

Lemma never_escapes_Optional (t : tyv) : never_escapes t -> never_escapes (Optional t).
Proof. intros H j. destruct j; try apply H. reflexivity. Qed.

Lemma escapes_under {A : Type} (k : loc_item) (r : outcome A) :
  escapes (under k r) = escapes r.
Proof. destruct r; reflexivity. Qed.

Lemma validate_items_never_escapes (t : tyv) (items : list json) :
  never_escapes t ->
  forall i vals errs, escapes (validate_items t i items vals errs) = false.
Proof.
  intros Ht. induction items as [|x rest IH]; intros i vals errs; simpl.
  - destruct errs; reflexivity.
  - pose proof (Ht x) as Hx. rewrite <- (escapes_under (LIndex i)) in Hx.
    destruct (under (LIndex i) (run t x)); [apply IH|apply IH|discriminate Hx].
Qed.

Lemma never_escapes_ListOf (t : tyv) : never_escapes t -> never_escapes (ListOf t).
Proof.
  intros Ht j. destruct j; try reflexivity. cbn [run ListOf].
  pose proof (validate_items_never_escapes t items Ht 0%nat [] []) as H.
  destruct (validate_items t 0 items [] []); [reflexivity|reflexivity|discriminate H].
Qed.

Lemma validate_union_never_escapes (members : list tyv) (j : json) :
  Forall never_escapes members ->
  forall acc, escapes (validate_union members j acc) = false.
Proof.
  induction 1 as [|t rest Ht _ IH]; intros acc; simpl; [reflexivity|].
  pose proof (Ht j) as Hj. rewrite <- (escapes_under (LKey (tname t))) in Hj.
  destruct (under (LKey (tname t)) (run t j)); [reflexivity|apply IH|discriminate Hj].
Qed.

Lemma never_escapes_Union (members : list tyv) :
  Forall never_escapes members -> never_escapes (Union members).
Proof. intros H j. apply validate_union_never_escapes. exact H. Qed.

Lemma apply_validators_never_escape (fs : list validator) :
  Forall raises_value_errors_only fs ->
  forall v, escapes (apply_validators fs v) = false.
Proof.
  induction 1 as [|g rest Hg _ IH]; intros v; simpl; [reflexivity|].
  destruct (g v) as [v'|e] eqn:E; [apply IH|].
  destruct (Hg v e E) as [m ->]. reflexivity.
Qed.

Lemma tame_field_never_escapes (f : field) (d : list (string * json)) :
  tame_field f -> escapes (validate_field f d) = false.
Proof.
  intros [Ht Hv]. unfold validate_field.
  destruct (dict_get (fkey f) d) as [raw|].
  - rewrite escapes_under. pose proof (Ht raw) as Hraw.
    destruct (run (annotation f) raw); [|reflexivity|discriminate Hraw].
    apply apply_validators_never_escape. exact Hv.
  - destruct (default f); reflexivity.
Qed.

Lemma tame_fields_never_escape (fs : list field) (d : list (string * json)) :
  Forall tame_field fs -> first_escape fs d = None.
Proof.
  induction 1 as [|f rest Hf _ IH]; simpl; [reflexivity|].
  pose proof (tame_field_never_escapes f d Hf) as H.
  destruct (validate_field f d); [exact IH|exact IH|discriminate H].
Qed.

Lemma never_escapes_BaseModel (cls : string) (fs : list field) (after : list validator) :
  Forall tame_field fs -> Forall raises_value_errors_only after ->
  never_escapes (BaseModel cls fs after).
Proof.
  intros Hfs Hafter j. destruct j; try reflexivity.
  rewrite (model_outcome cls fs after entries (tame_fields_never_escape fs entries Hfs)).
  destruct (all_errors fs entries); [|reflexivity].
  apply apply_validators_never_escape. exact Hafter.
Qed.

Lemma one_of_raises_value_errors_only (name : string) (allowed : list value) (msg : string) :
  raises_value_errors_only (one_of name allowed msg).
Proof.
  intros x e. unfold one_of. cbn [call]. destruct (negb (py_in x allowed)); [|discriminate].
  intros H. injection H as <-. exists msg. reflexivity.
Qed.

Ltac tame :=
  repeat first
    [ apply Forall_nil
    | apply Forall_cons
    | split
    | apply never_escapes_Optional
    | apply never_escapes_Str
    | apply never_escapes_Int
    | apply never_escapes_PositiveInt
    | apply one_of_raises_value_errors_only ].

(** ** Collection of violations *)










(** ** Required fields *)


(** Membership in a written list of fields. *)
Ltac in_fields := repeat first [left; reflexivity | right].



(** An error of an item of a list is an error of the list, under the
    item's index. *)
Lemma items_keep (t : tyv) (items : list json) (e : error) :
  forall i vals errs, In e errs -> rejects (validate_items t i items vals errs) e.
Proof.
  induction items as [|x rest IH]; intros i vals errs Hin; simpl.
  - destruct errs; [destruct Hin|exact Hin].
  - destruct (under (LIndex i) (run t x)); [apply IH; exact Hin| |exact I].
    apply IH. apply in_or_app. left. exact Hin.
Qed.



Section RequiredFields.
Context {L : Library}.













End RequiredFields.





(** ** Re-flattening *)

Lemma apply_validators_reports (fs : list validator) (v : value) :
  apply_validators fs v <> Invalid [].
Proof.
  revert v. induction fs as [|f rest IH]; intros v; simpl; [discriminate|].
  destruct (f v) as [v'|e]; [apply IH|]. destruct e; discriminate.
Qed.

Lemma apply_validators_checks (fs : list validator) (v lead : value) :
  Forall checks_only fs -> apply_validators fs v = Ok lead -> lead = v.
Proof.
  intros Hall. revert v. induction Hall as [|f rest Hf _ IH]; intros v; simpl.
  - congruence.
  - destruct (f v) as [v'|e] eqn:Hfv.
    + intros H. rewrite (IH v' H). apply (Hf v v' Hfv).
    + destruct e; discriminate.
Qed.

Lemma field_reports (f : field) (d : list (string * json)) :
  reports_errors (annotation f) -> validate_field f d <> Invalid [].
Proof.
  intros Hrep. unfold validate_field. destruct (dict_get (fkey f) d) as [raw|].
  - pose proof (Hrep raw) as Hraw.
    destruct (run (annotation f) raw) as [v|es|x]; simpl.
    + pose proof (apply_validators_reports (validators f) v) as Hv.
      destruct (apply_validators (validators f) v) as [v'|es|x]; simpl; try discriminate.
      destruct es; [congruence|discriminate].
    + destruct es; [congruence|discriminate].
    + discriminate.
  - destruct (default f); discriminate.
Qed.

Lemma reports_Str : reports_errors Str.
Proof. intros j. destruct j; discriminate. Qed.

Lemma reports_Int {L : Library} : reports_errors Int.
Proof.
  intros j. destruct j; cbn; try discriminate.
  - destruct (float_as_int f); discriminate.
  - destruct (str_as_int s); discriminate.
Qed.

Lemma reports_PositiveInt {L : Library} : reports_errors PositiveInt.
Proof.
  intros j. destruct j; cbn; try discriminate.
  - destruct b; discriminate.
  - destruct (0 <? z)%Z; discriminate.
  - destruct (float_as_int f) as [z|r]; [destruct (0 <? z)%Z|]; discriminate.
  - destruct (str_as_int s) as [z|r]; [destruct (0 <? z)%Z|]; discriminate.
Qed.

Lemma reports_Optional (t : tyv) : reports_errors t -> reports_errors (Optional t).
Proof. intros Ht j. destruct j; try apply Ht. discriminate. Qed.

Lemma validate_items_reports (t : tyv) (items : list json) :
  forall i vals errs, validate_items t i items vals errs <> Invalid [].
Proof.
  induction items as [|x rest IH]; intros i vals errs; simpl.
  - destruct errs; discriminate.
  - destruct (under (LIndex i) (run t x)); [apply IH|apply IH|discriminate].
Qed.

Lemma reports_ListOf (t : tyv) : reports_errors (ListOf t).
Proof.
  intros j. destruct j; try discriminate. cbn [run ListOf].
  pose proof (validate_items_reports t items 0 [] []) as H.
  destruct (validate_items t 0 items [] []) as [vs|es|x]; [discriminate|congruence|discriminate].
Qed.

Lemma validate_union_reports (members : list tyv) (j : json) :
  forall acc,
    Forall reports_errors members -> acc <> [] \/ members <> [] ->
    validate_union members j acc <> Invalid [].
Proof.
  induction members as [|t rest IH]; intros acc Hall Hne; simpl.
  - destruct Hne as [Hne|Hne]; congruence.
  - inversion Hall as [|? ? Ht Hrest]; subst.
    pose proof (Ht j) as Htj.
    destruct (run t j) as [v|es|x]; simpl; [discriminate| |discriminate].
    apply IH; [exact Hrest|]. left.
    destruct es; [congruence|]. destruct acc; discriminate.
Qed.

Lemma reports_Union (members : list tyv) :
  Forall reports_errors members -> members <> [] -> reports_errors (Union members).
Proof.
  intros Hall Hne j. cbn [run Union].
  apply validate_union_reports; [exact Hall|right; exact Hne].
Qed.

Lemma reports_BaseModel (cls : string) (fs : list field) (after : list validator) :
  reports_errors (BaseModel cls fs after).
Proof.
  intros j. destruct j; try discriminate. cbn [run BaseModel].
  rewrite validate_fields_spec.
  destruct (first_escape fs entries); [discriminate|].
  destruct (all_errors fs entries); [apply apply_validators_reports|discriminate].
Qed.

Lemma raise_if_empty_checks (cls : string) (required_fields : list string) :
  checks_only (raise_if_empty cls required_fields).
Proof.
  intros x y. unfold raise_if_empty. cbn [call].
  destruct (empty_fields x required_fields) as [names|e]; cbn [py_bind]; [|discriminate].
  destruct names; congruence.
Qed.

Lemma validate_dates_checks : checks_only TimeFrame.validate_dates.
Proof.
  intros x y. unfold TimeFrame.validate_dates. cbn [call].
  destruct (py_getattr x "earliest_date") as [e|]; cbn [py_bind]; [|discriminate].
  destruct (is_None e); [|congruence].
  destruct (py_getattr x "latest_date") as [l|]; cbn [py_bind]; [|discriminate].
  destruct (is_None l); congruence.
Qed.



(** *** Keys of the re-flattened tree *)












(** The field validators of the source only check. *)
Ltac checks :=
  intros x y; cbv beta iota delta [call one_of ColorCombination.validate_preference
    Option.validate_weighting Price.validate_currency Amount.validate_currency
    Balance.validate_currency is_valid_currency_code re_match py_lt py_ge py_le];
  destruct x; cbn [py_bind];
  repeat match goal with
         | |- context [if ?b then _ else _] => destruct b; cbn [py_bind]
         end;
  congruence.








Ltac reports :=
  repeat first
    [ apply Forall_nil
    | apply Forall_cons
    | progress cbn [annotation aliased plain required]
    | apply reports_Optional
    | apply reports_Str
    | apply reports_Int
    | apply reports_PositiveInt
    | apply reports_ListOf
    | apply reports_BaseModel
    | apply reports_Union
    | discriminate ].

(** Every record class of the source meets the two conditions of
    [dump_by_field_name]. *)
Lemma source_classes_report {L : Library} :
  Forall (fun fs => Forall (fun f => reports_errors (annotation f)) fs)
    [ Id.fields; Odometer.fields; ColorCombination.fields; ImageTag.fields; Price.fields;
      Option.fields; Amount.fields; Balance.fields; Finance.fields; Vehicle.fields;
      Name.fields; Email.fields; Phone.fields; Street.fields; Address.fields;
      Contact.fields; TimeFrame.fields; Customer.fields; Vendor.fields; Provider.fields;
      Prospect.fields; ADF.fields; Lead.fields ].
Proof.
  unfold Id.fields, Odometer.fields, ColorCombination.fields, ImageTag.fields, Price.fields,
    Option.fields, Amount.fields, Balance.fields, Finance.fields, Vehicle.fields,
    Name.fields, Email.fields, Phone.fields, Street.fields, Address.fields,
    Contact.fields, TimeFrame.fields, Customer.fields, Vendor.fields, Provider.fields,
    Prospect.fields, ADF.fields, Lead.fields,
    Id.sequence, Price.currency, Option.weighting, Amount.currency, Balance.currency,
    Contact.name, TimeFrame.earliest_date, TimeFrame.latest_date, Vendor.vendorname,
    Provider.name, Prospect.request_date.
  reports.
Qed.

Lemma source_validators_check :
  Forall checks_only
    [ Vehicle.check_required_fields; Contact.check_required_fields;
      TimeFrame.validate_dates; Customer.check_required_fields;
      Vendor.check_required_fields; Provider.check_required_fields ].
Proof.
  repeat first [ apply Forall_nil | apply Forall_cons
               | apply raise_if_empty_checks | apply validate_dates_checks ].
Qed.






(** * Further properties of the source *)

(** ** Equality of values *)

Lemma value_eqb_refl (a : value) : value_eqb a a = true.
Proof.
  induction a as [| s | z | items IH | cls attrs IH] using value_induction; simpl.
  - reflexivity.
  - apply String.eqb_refl.
  - apply Z.eqb_refl.
  - induction IH as [|x rest Hx _ IHrest]; [reflexivity|]. rewrite Hx. exact IHrest.
  - rewrite String.eqb_refl. simpl.
    induction IH as [|[k x] rest Hx _ IHrest]; [reflexivity|].
    simpl in Hx. rewrite String.eqb_refl, Hx. exact IHrest.
Qed.

Lemma value_eqb_eq (a b : value) : value_eqb a b = true -> a = b.
Proof.
  revert b.
  induction a as [| s | z | items IH | cls attrs IH] using value_induction;
    intros b; destruct b as [| t | y | items' | cls' attrs']; simpl; try discriminate.
  - reflexivity.
  - intros H. apply String.eqb_eq in H. congruence.
  - intros H. apply Z.eqb_eq in H. congruence.
  - intros H. f_equal. revert items' H.
    induction IH as [|x rest Hx _ IHrest]; intros [|y ys] H; try discriminate.
    + reflexivity.
    + apply andb_true_iff in H. destruct H as [Hxy Hrest].
      rewrite (Hx y Hxy), (IHrest ys Hrest). reflexivity.
  - intros H. apply andb_true_iff in H. destruct H as [Hcls H].
    apply String.eqb_eq in Hcls. subst cls'. f_equal. revert attrs' H.
    induction IH as [|[k x] rest Hx _ IHrest]; intros [|[k' y] ys] H; try discriminate.
    + reflexivity.
    + apply andb_true_iff in H. destruct H as [H Hrest].
      apply andb_true_iff in H. destruct H as [Hk Hxy].
      apply String.eqb_eq in Hk. simpl in Hx.
      rewrite Hk, (Hx y Hxy), (IHrest ys Hrest). reflexivity.
Qed.

(** Membership in a tuple of values is membership in the list. *)
Lemma py_in_spec (x : value) (tuple : list value) : py_in x tuple = true <-> In x tuple.
Proof.
  unfold py_in. rewrite existsb_exists. split.
  - intros [y [Hy Heq]]. rewrite (value_eqb_eq x y Heq). exact Hy.
  - intros Hin. exists x. split; [exact Hin|apply value_eqb_refl].
Qed.

Lemma one_of_accepts_exactly (name : string) (allowed : list value) (msg : string) :
  accepts_exactly (one_of name allowed msg) allowed msg.
Proof.
  intros v. unfold one_of. cbn [call]. split; intros H.
  - apply py_in_spec in H. rewrite H. reflexivity.
  - destruct (py_in v allowed) eqn:E; [|reflexivity].
    apply py_in_spec in E. contradiction.
Qed.

(** ** Enumerated fields *)

(** X2: an optional string field guarded by an enumerated validator.  An
    absent key and an explicit null give [None]; a string is kept when the
    validator lists it and reported with the validator's message when it
    does not; any other raw value is reported as not being a string, before
    the validator is asked. *)
Theorem enumerated_field_outcome (f : field) (g : validator) (allowed : list value)
    (msg : string) (d : list (string * json)) :
  annotation f = Optional Str -> validators f = [g] -> default f = Some VNone ->
  accepts_exactly g allowed msg -> In VNone allowed ->
  (absent_or_null (fkey f) d -> validate_field f d = Ok VNone)
  /\ (forall s, dict_get (fkey f) d = Some (JStr s) ->
        (In (VStr s) allowed -> validate_field f d = Ok (VStr s))
        /\ (~ In (VStr s) allowed ->
            validate_field f d = Invalid [at_path [fkey f] (EValueError msg)]))
  /\ (forall raw, dict_get (fkey f) d = Some raw -> raw <> JNull -> (forall s, raw <> JStr s) ->
        validate_field f d = Invalid [at_path [fkey f] EStringType]).
Proof.
  intros Hann Hval Hdef Hg Hnone. unfold validate_field. rewrite Hann, Hval, Hdef.
  split; [|split].
  - intros [H|H]; rewrite H; [reflexivity|].
    simpl. rewrite (proj1 (Hg VNone) Hnone). reflexivity.
  - intros s H. rewrite H. simpl. split; intros Hin.
    + rewrite (proj1 (Hg (VStr s)) Hin). reflexivity.
    + rewrite (proj2 (Hg (VStr s)) Hin). reflexivity.
  - intros raw H Hnull Hstr. rewrite H.
    destruct raw; try reflexivity.
    + contradiction.
    + exfalso. apply (Hstr s). reflexivity.
Qed.

Lemma enumerated_field_outcome_witness :
  validate_field Vehicle_status [("@status", JStr "used")] = Ok (VStr "used")
  /\ validate_field Vehicle_status [("@status", JInt 1)]
     = Invalid [at_path ["@status"] EStringType]
  /\ validate_field Vehicle_status [("status", JStr "broken")] = Ok VNone.
Proof.
  pose proof (fun d =>
    enumerated_field_outcome Vehicle_status Vehicle.validate_status
      [VNone; VStr "new"; VStr "used"] "Invalid Status input" d
      eq_refl eq_refl eq_refl (one_of_accepts_exactly _ _ _) (or_introl eq_refl)) as H.
  split; [|split].
  - destruct (H [("@status", JStr "used")]) as [_ [Hs _]].
    apply (proj1 (Hs "used" eq_refl)). right. right. left. reflexivity.
  - destruct (H [("@status", JInt 1)]) as [_ [_ Hraw]].
    apply (Hraw (JInt 1) eq_refl); discriminate.
  - destruct (H [("status", JStr "broken")]) as [Habs _].
    apply Habs. left. reflexivity.
Defined.

(** ** The preference of a colour combination *)

Lemma validate_preference_int (z : Z) :
  ColorCombination.validate_preference (VInt z) =
  if (z <? 1)%Z then Raise (ValueError "Invalid Preference input") else Return (VInt z).
Proof.
  unfold ColorCombination.validate_preference. cbn [call]. simpl. destruct (z <? 1)%Z; reflexivity.
Qed.

Lemma preference_in_fields {L : Library} :
  In ColorCombination_preference ColorCombination.fields.
Proof. unfold ColorCombination.fields, ColorCombination_preference. in_fields. Qed.

(** X3: a preference that is (or coerces to) an integer is accepted from 1
    upwards; below 1 the field is rejected with the preference message, and
    so is the colour combination. *)
Theorem preference_at_least_one {L : Library} (d : list (string * json)) (raw : json) (z : Z) :
  dict_get "preference" d = Some raw -> validate_int raw = Ok z ->
  ((1 <= z)%Z -> validate_field ColorCombination_preference d = Ok (VInt z))
  /\ ((z < 1)%Z ->
      validate_field ColorCombination_preference d
      = Invalid [at_path ["preference"] (EValueError "Invalid Preference input")]
      /\ rejects (run ColorCombination.cls (JDict d))
                 (at_path ["preference"] (EValueError "Invalid Preference input"))).
Proof.
  intros Hget Hint.
  assert (Hf : validate_field ColorCombination_preference d
               = if (z <? 1)%Z
                 then Invalid [at_path ["preference"] (EValueError "Invalid Preference input")]
                 else Ok (VInt z)).
  { unfold validate_field.
    cbn [ColorCombination_preference plain fkey falias fname annotation validators].
    rewrite Hget, (optional_not_null _ _ (validate_int_not_null raw z Hint)).
    cbn [run Int]. rewrite Hint. cbn [apply_validators].
    rewrite validate_preference_int.
    destruct (z <? 1)%Z; reflexivity. }
  split; intros Hz.
  - rewrite Hf. replace (z <? 1)%Z with false by (symmetry; apply Z.ltb_ge; lia).
    reflexivity.
  - replace (z <? 1)%Z with true in Hf by (symmetry; apply Z.ltb_lt; lia).
    split; [exact Hf|].
    unfold ColorCombination.cls.
    apply (model_rejects "ColorCombination" ColorCombination.fields [] d
             ColorCombination_preference).
    + apply preference_in_fields.
    + rewrite Hf. left. reflexivity.
Qed.

Lemma preference_at_least_one_witness :
  validate_field ColorCombination_preference [("preference", JInt 1)] = Ok (VInt 1)
  /\ rejects (run ColorCombination.cls (JDict [("preference", JStr "0")]))
             (at_path ["preference"] (EValueError "Invalid Preference input")).
Proof.
  split.
  - apply (proj1 (@preference_at_least_one sample_library
                    [("preference", JInt 1)] (JInt 1) 1 eq_refl eq_refl)); lia.
  - apply (proj2 (@preference_at_least_one sample_library
                    [("preference", JStr "0")] (JStr "0") 0 eq_refl eq_refl)); lia.
Defined.

(** ** The currency fields *)

(** X4: each of the three currency fields, read under its own key
    ([@curreny] for [Price], [@currency] for [Amount] and [Balance]), keeps
    a string exactly when it is three capital letters, alone or followed by
    one newline; every other string is reported with the currency message. *)
Theorem currency_field_accepts_three_capitals {L : Library} (f : field)
    (d : list (string * json)) (s : string) :
  In f [Price.currency; Amount.currency; Balance.currency] ->
  dict_get (fkey f) d = Some (JStr s) ->
  (three_capitals s -> validate_field f d = Ok (VStr s))
  /\ (~ three_capitals s ->
      validate_field f d = Invalid [at_path [fkey f] (EValueError "Invalid Currency input")]).
Proof.
  intros Hf Hget.
  assert (Hout : validate_field f d =
                 if re_match_at currency_pattern true s then Ok (VStr s)
                 else Invalid [at_path [fkey f] (EValueError "Invalid Currency input")]).
  { destruct Hf as [<- | [<- | [<- | []]]];
      apply (currency_field_outcome _ _ _ d s eq_refl Hget). }
  pose proof (currency_code_shape s) as Hshape.
  change (is_valid_currency_code (VStr s))
    with (@Return bool (re_match_at currency_pattern true s)) in Hshape.
  fold (three_capitals s) in Hshape.
  rewrite Hout. revert Hshape.
  destruct (re_match_at currency_pattern true s); intros Hshape; split; intros H.
  - reflexivity.
  - exfalso. apply H, Hshape. reflexivity.
  - apply Hshape in H. discriminate H.
  - reflexivity.
Qed.

Lemma currency_field_accepts_three_capitals_witness :
  validate_field Amount.currency [("@currency", JStr "CAD")] = Ok (VStr "CAD")
  /\ validate_field Price.currency [("@curreny", JStr "CAD")] = Ok (VStr "CAD").
Proof.
  assert (Hcad : three_capitals "CAD").
  { exists "C"%char, "A"%char, "D"%char. repeat split. left. reflexivity. }
  split.
  - apply (proj1 (@currency_field_accepts_three_capitals sample_library Amount.currency
                    [("@currency", JStr "CAD")] "CAD"
                    (or_intror (or_introl eq_refl)) eq_refl)).
    exact Hcad.
  - apply (proj1 (@currency_field_accepts_three_capitals sample_library Price.currency
                    [("@curreny", JStr "CAD")] "CAD" (or_introl eq_refl) eq_refl)).
    exact Hcad.
Defined.

(** ** Classes whose validation never lets an exception escape *)

(** X5: validating a raw value of any shape against [Id], [Odometer],
    [ImageTag], [Name], [Email], [Phone] or [Street] ends with a record or
    with a list of errors: their fields are plain or enumerated, the
    enumerated validators raise [ValueError] only, and so no other
    exception leaves the validation -- an explicit null included. *)
Theorem plain_classes_never_escape {L : Library} :
  Forall never_escapes
    [Id.cls; Odometer.cls; ImageTag.cls; Name.cls; Email.cls; Phone.cls; Street.cls].
Proof.
  repeat first [apply Forall_nil | apply Forall_cons].
  - unfold Id.cls, Id.fields, Id.sequence. apply never_escapes_BaseModel; tame.
  - unfold Odometer.cls, Odometer.fields. apply never_escapes_BaseModel; tame.
  - unfold ImageTag.cls, ImageTag.fields. apply never_escapes_BaseModel; tame.
  - unfold Name.cls, Name.fields. apply never_escapes_BaseModel; tame.
  - unfold Email.cls, Email.fields. apply never_escapes_BaseModel; tame.
  - unfold Phone.cls, Phone.fields. apply never_escapes_BaseModel; tame.
  - unfold Street.cls, Street.fields. apply never_escapes_BaseModel; tame.
Qed.

(** ** The attributes of a validated record *)

(** The attribute a field contributes is found under the field's name. *)
Lemma attr_of_field (fs : list field) (d : list (string * json)) (f : field) (v : value) :
  validate_field f d = Ok v -> In f fs -> named_once fs f ->
  dict_get (fname f) (attrs_of fs d) = Some v.
Proof.
  intros Hv. induction fs as [|g rest IH]; intros Hin Honce; [contradiction|].
  unfold attrs_of. cbn [flat_map]. fold (attrs_of rest d).
  destruct (String.eqb (fname f) (fname g)) eqn:E.
  - apply String.eqb_eq in E.
    assert (g = f) as -> by (apply Honce; [left; reflexivity|congruence]).
    rewrite Hv. cbn [app dict_get]. rewrite String.eqb_refl. reflexivity.
  - assert (Hrest : dict_get (fname f) (attrs_of rest d) = Some v).
    { apply IH.
      - destruct Hin as [->|Hin]; [rewrite String.eqb_refl in E; discriminate E|exact Hin].
      - intros h Hh. apply Honce. right. exact Hh. }
    destruct (validate_field g d); cbn [app dict_get]; [rewrite E|idtac|idtac]; exact Hrest.
Qed.

(** A field of a record whose field loop found no error and let nothing
    escape has a value. *)
Lemma field_ok (fs : list field) (d : list (string * json)) (f : field) :
  In f fs -> first_escape fs d = None -> all_errors fs d = [] ->
  reports_errors (annotation f) ->
  exists v, validate_field f d = Ok v.
Proof.
  intros Hin Hesc Herr Hrep.
  pose proof (first_escape_none fs d f Hesc Hin) as H1.
  pose proof (all_errors_nil fs d f Herr Hin) as H2.
  pose proof (field_reports f d Hrep) as H3.
  destruct (validate_field f d) as [v|es|e].
  - exists v. reflexivity.
  - simpl in H2. subst es. contradiction.
  - discriminate H1.
Qed.

Lemma never_none_Str : never_none Str.
Proof. intros j v. destruct j; try discriminate. intros H. injection H as <-. reflexivity. Qed.

Lemma never_none_ListOf (t : tyv) : never_none (ListOf t).
Proof.
  intros j v. destruct j; try discriminate. cbn [run ListOf].
  destruct (validate_items t 0 items [] []); try discriminate.
  intros H. injection H as <-. reflexivity.
Qed.

Lemma never_none_BaseModel (cls : string) (fs : list field) (after : list validator) :
  Forall checks_only after -> never_none (BaseModel cls fs after).
Proof.
  intros Hafter j v. destruct j; try discriminate. cbn [run BaseModel].
  destruct (validate_fields fs entries [] []); try discriminate.
  intros H. rewrite (apply_validators_checks after _ v Hafter H). reflexivity.
Qed.

Lemma validate_union_member (members : list tyv) (j : json) (v : value) :
  forall acc, validate_union members j acc = Ok v ->
              exists t, In t members /\ run t j = Ok v.
Proof.
  induction members as [|t rest IH]; intros acc; simpl; [discriminate|].
  destruct (run t j) as [w|es|e] eqn:E; simpl.
  - intros H. injection H as <-. exists t. split; [left; reflexivity|exact E].
  - intros H. destruct (IH _ H) as [u [Hu Hrun]]. exists u. split; [right; exact Hu|exact Hrun].
  - discriminate.
Qed.

Lemma never_none_Union (members : list tyv) :
  Forall never_none members -> never_none (Union members).
Proof.
  intros Hall j v H. destruct (validate_union_member members j v [] H) as [t [Hin Hrun]].
  rewrite Forall_forall in Hall. exact (Hall t Hin j v Hrun).
Qed.

(** An optional field without validators over such a type holds [None]
    exactly when its key is absent or null. *)
Lemma optional_field_none (name : string) (t : tyv) (d : list (string * json)) (v : value) :
  never_none t ->
  validate_field (plain name (Optional t) []) d = Ok v ->
  (absent_or_null name d -> v = VNone) /\ (~ absent_or_null name d -> is_None v = false).
Proof.
  intros Ht. unfold validate_field, absent_or_null.
  cbn [plain fkey falias fname annotation validators default].
  destruct (dict_get name d) as [raw|].
  - destruct raw; cbn [run Optional].
    1: { intros H. injection H as <-. split; [reflexivity|]. intros Hn. exfalso. apply Hn. right. reflexivity. }
    all: intros H; split; [intros [Hd|Hd]; discriminate Hd|intros _];
      match type of H with
      | under _ (match ?r with _ => _ end) = _ =>
          destruct r as [w| |] eqn:E; cbn in H; try discriminate H;
          injection H as <-; exact (Ht _ _ E)
      end.
  - intros H. injection H as <-. split; [reflexivity|]. intros Hn. exfalso. apply Hn. left. reflexivity.
Qed.

(** The one-field form of [check_required_fields] on a record whose field
    loop succeeded. *)
Lemma required_check_outcome (cls fld : string) (fs : list field) (d : list (string * json))
    (f : field) (v : value) :
  In f fs -> fname f = fld -> named_once fs f ->
  first_escape fs d = None -> all_errors fs d = [] ->
  validate_field f d = Ok v ->
  run (BaseModel cls fs [raise_if_empty cls [fld]]) (JDict d) =
  if is_None v then Invalid [mkError [] (missing_message cls fld)]
  else Ok (VModel cls (attrs_of fs d)).
Proof.
  intros Hin Hname Honce Hesc Herr Hv.
  rewrite (model_outcome _ _ _ _ Hesc), Herr. cbn [apply_validators].
  pose proof (attr_of_field fs d f v Hv Hin Honce) as Hattr. rewrite Hname in Hattr.
  unfold raise_if_empty, empty_fields, py_getattr, getattr. cbn [call]. rewrite Hattr.
  cbn [py_bind]. destruct (is_None v); reflexivity.
Qed.

Ltac named_once_in :=
  let g := fresh "g" in
  let Hin := fresh "Hin" in
  let Hname := fresh "Hname" in
  intros g Hin Hname; cbn [In] in Hin;
  repeat (destruct Hin as [<- | Hin];
          [first [reflexivity | vm_compute in Hname; discriminate Hname]|]);
  contradiction.

(** ** Records with a required name *)

Section RequiredNames.
Context {L : Library}.

Lemma contact_outcome (d : list (string * json)) :
  first_escape Contact.fields d = None -> all_errors Contact.fields d = [] ->
  (absent_or_null "name" d ->
   run Contact.cls (JDict d) = Invalid [at_path [] (missing_message "Contact" "name")])
  /\ (~ absent_or_null "name" d ->
      run Contact.cls (JDict d) = Ok (VModel "Contact" (attrs_of Contact.fields d))).
Proof.
  intros Hesc Herr.
  assert (Hin : In Contact.name Contact.fields) by (unfold Contact.fields; in_fields).
  assert (Honce : named_once Contact.fields Contact.name) by (unfold Contact.fields; named_once_in).
  destruct (field_ok Contact.fields d Contact.name Hin Hesc Herr) as [v Hv].
  { unfold Contact.name. reports. }
  pose proof (required_check_outcome "Contact" "name" Contact.fields d Contact.name v
                Hin eq_refl Honce Hesc Herr Hv) as Hrun.
  destruct (optional_field_none "name" (Union [Str; Name.cls; ListOf Name.cls]) d v)
    as [Hnone Hsome].
  { apply never_none_Union. repeat apply Forall_cons; try apply Forall_nil.
    - apply never_none_Str.
    - apply never_none_BaseModel. apply Forall_nil.
    - apply never_none_ListOf. }
  { exact Hv. }
  unfold Contact.cls, Contact.check_required_fields. cbn [call].
  split; intros H; rewrite Hrun.
  - rewrite (Hnone H). reflexivity.
  - rewrite (Hsome H). reflexivity.
Qed.

Lemma vendor_outcome (d : list (string * json)) :
  first_escape Vendor.fields d = None -> all_errors Vendor.fields d = [] ->
  (absent_or_null "vendorname" d ->
   run Vendor.cls (JDict d) = Invalid [at_path [] (missing_message "Vendor" "vendorname")])
  /\ (~ absent_or_null "vendorname" d ->
      run Vendor.cls (JDict d) = Ok (VModel "Vendor" (attrs_of Vendor.fields d))).
Proof.
  intros Hesc Herr.
  assert (Hin : In Vendor.vendorname Vendor.fields) by (unfold Vendor.fields; in_fields).
  assert (Honce : named_once Vendor.fields Vendor.vendorname) by (unfold Vendor.fields; named_once_in).
  destruct (field_ok Vendor.fields d Vendor.vendorname Hin Hesc Herr) as [v Hv].
  { unfold Vendor.vendorname. reports. }
  pose proof (required_check_outcome "Vendor" "vendorname" Vendor.fields d Vendor.vendorname v
                Hin eq_refl Honce Hesc Herr Hv) as Hrun.
  destruct (optional_field_none "vendorname" Str d v never_none_Str Hv) as [Hnone Hsome].
  unfold Vendor.cls, Vendor.check_required_fields. cbn [call].
  split; intros H; rewrite Hrun.
  - rewrite (Hnone H). reflexivity.
  - rewrite (Hsome H). reflexivity.
Qed.

Lemma provider_outcome (d : list (string * json)) :
  first_escape Provider.fields d = None -> all_errors Provider.fields d = [] ->
  (absent_or_null "name" d ->
   run Provider.cls (JDict d) = Invalid [at_path [] (missing_message "Provider" "name")])
  /\ (~ absent_or_null "name" d ->
      run Provider.cls (JDict d) = Ok (VModel "Provider" (attrs_of Provider.fields d))).
Proof.
  intros Hesc Herr.
  assert (Hin : In Provider.name Provider.fields) by (unfold Provider.fields; in_fields).
  assert (Honce : named_once Provider.fields Provider.name) by (unfold Provider.fields; named_once_in).
  destruct (field_ok Provider.fields d Provider.name Hin Hesc Herr) as [v Hv].
  { unfold Provider.name. reports. }
  pose proof (required_check_outcome "Provider" "name" Provider.fields d Provider.name v
                Hin eq_refl Honce Hesc Herr Hv) as Hrun.
  destruct (optional_field_none "name" Name.cls d v) as [Hnone Hsome].
  { apply never_none_BaseModel. apply Forall_nil. }
  { exact Hv. }
  unfold Provider.cls, Provider.check_required_fields. cbn [call].
  split; intros H; rewrite Hrun.
  - rewrite (Hnone H). reflexivity.
  - rewrite (Hsome H). reflexivity.
Qed.

End RequiredNames.

(** X6: once the fields of a [Contact], a [Vendor] or a [Provider] have
    validated, the record is accepted exactly when the key of its required
    attribute ([name], [vendorname], [name]) is present and not null, and
    is otherwise rejected with the one message of [check_required_fields].
    Nothing more is asked of the value: an empty string, an empty list of
    names or a name record without any content passes. *)
Theorem required_name_is_presence_only {L : Library} (d : list (string * json)) :
  (first_escape Contact.fields d = None -> all_errors Contact.fields d = [] ->
   (absent_or_null "name" d ->
    run Contact.cls (JDict d) = Invalid [at_path [] (missing_message "Contact" "name")])
   /\ (~ absent_or_null "name" d ->
       run Contact.cls (JDict d) = Ok (VModel "Contact" (attrs_of Contact.fields d))))
  /\ (first_escape Vendor.fields d = None -> all_errors Vendor.fields d = [] ->
      (absent_or_null "vendorname" d ->
       run Vendor.cls (JDict d) = Invalid [at_path [] (missing_message "Vendor" "vendorname")])
      /\ (~ absent_or_null "vendorname" d ->
          run Vendor.cls (JDict d) = Ok (VModel "Vendor" (attrs_of Vendor.fields d))))
  /\ (first_escape Provider.fields d = None -> all_errors Provider.fields d = [] ->
      (absent_or_null "name" d ->
       run Provider.cls (JDict d) = Invalid [at_path [] (missing_message "Provider" "name")])
      /\ (~ absent_or_null "name" d ->
          run Provider.cls (JDict d) = Ok (VModel "Provider" (attrs_of Provider.fields d)))).
Proof.
  split; [|split].
  - apply contact_outcome.
  - apply vendor_outcome.
  - apply provider_outcome.
Qed.

Lemma required_name_is_presence_only_witness :
  run Contact.cls (JDict [("name", JStr "")])
  = Ok (VModel "Contact"
          [ ("primary_contact", VNone); ("name", VStr ""); ("email", VNone);
            ("phone", VNone); ("address", VNone) ])
  /\ run Contact.cls (JDict [("name", JList [])])
     = Ok (VModel "Contact"
             [ ("primary_contact", VNone); ("name", VList []); ("email", VNone);
               ("phone", VNone); ("address", VNone) ])
  /\ run Provider.cls (JDict [("name", JDict [])])
     = Ok (VModel "Provider"
             [ ("id", VNone);
               ("name", VModel "Name" [("part", VNone); ("type", VNone); ("name", VNone)]);
               ("service", VNone); ("url", VNone); ("email", VNone); ("phone", VNone);
               ("contact", VNone) ])
  /\ run Vendor.cls (JDict [("url", JStr "")])
     = Invalid [at_path [] (missing_message "Vendor" "vendorname")].
Proof.
  assert (Hpresent : forall key raw (rest : list (string * json)),
             raw <> JNull -> ~ absent_or_null key ((key, raw) :: rest)).
  { intros key raw rest Hraw [H|H]; simpl in H; rewrite String.eqb_refl in H;
      [discriminate H|injection H as H; contradiction]. }
  split; [|split; [|split]].
  - pose proof (@required_name_is_presence_only sample_library [("name", JStr "")]) as H.
    destruct H as [H _]. destruct (H eq_refl eq_refl) as [_ Hok].
    rewrite Hok; [reflexivity|]. apply Hpresent. discriminate.
  - pose proof (@required_name_is_presence_only sample_library [("name", JList [])]) as H.
    destruct H as [H _]. destruct (H eq_refl eq_refl) as [_ Hok].
    rewrite Hok; [reflexivity|]. apply Hpresent. discriminate.
  - pose proof (@required_name_is_presence_only sample_library [("name", JDict [])]) as H.
    destruct H as [_ [_ H]]. destruct (H eq_refl eq_refl) as [_ Hok].
    rewrite Hok; [reflexivity|]. apply Hpresent. discriminate.
  - pose proof (@required_name_is_presence_only sample_library [("url", JStr "")]) as H.
    destruct H as [_ [H _]]. destruct (H eq_refl eq_refl) as [Hno _].
    apply Hno. left. reflexivity.
Defined.

(** ** Record checks that never reject *)

Lemma required_str_value (name : string) (d : list (string * json)) (v : value) :
  validate_field (required name Str) d = Ok v -> exists s, v = VStr s.
Proof.
  unfold validate_field. cbn [required fkey falias fname annotation validators default].
  destruct (dict_get name d) as [raw|]; [|discriminate].
  destruct raw; cbn; try discriminate.
  intros H. injection H as <-. exists s. reflexivity.
Qed.

Lemma fields_ok_attrs (fs : list field) (d : list (string * json))
    (attrs : list (string * value)) :
  validate_fields fs d [] [] = Ok attrs ->
  first_escape fs d = None /\ all_errors fs d = [] /\ attrs = attrs_of fs d.
Proof.
  rewrite validate_fields_spec.
  destruct (first_escape fs d); [discriminate|].
  destruct (all_errors fs d); [|discriminate].
  intros H. injection H as <-. repeat split.
Qed.

Section VehicleCheck.
Context {L : Library}.

Lemma vehicle_required_attr (d : list (string * json)) (name : string) :
  In name ["year"; "make"; "model"] ->
  first_escape Vehicle.fields d = None -> all_errors Vehicle.fields d = [] ->
  exists s, dict_get name (attrs_of Vehicle.fields d) = Some (VStr s).
Proof.
  intros Hname Hesc Herr.
  assert (Hin : In (required name Str) Vehicle.fields).
  { unfold Vehicle.fields.
    destruct Hname as [<- | [<- | [<- | []]]]; in_fields. }
  assert (Honce : named_once Vehicle.fields (required name Str)).
  { unfold Vehicle.fields.
    destruct Hname as [<- | [<- | [<- | []]]]; named_once_in. }
  destruct (field_ok Vehicle.fields d (required name Str) Hin Hesc Herr reports_Str)
    as [v Hv].
  destruct (required_str_value name d v Hv) as [s ->].
  exists s. exact (attr_of_field Vehicle.fields d (required name Str) (VStr s) Hv Hin Honce).
Qed.

Lemma vehicle_check_passes (d : list (string * json)) (attrs : list (string * value)) :
  validate_fields Vehicle.fields d [] [] = Ok attrs ->
  Vehicle.check_required_fields (VModel "Vehicle" attrs) = Return (VModel "Vehicle" attrs).
Proof.
  intros H. destruct (fields_ok_attrs _ _ _ H) as [Hesc [Herr ->]].
  destruct (vehicle_required_attr d "year" (or_introl eq_refl) Hesc Herr) as [y Hy].
  destruct (vehicle_required_attr d "make" (or_intror (or_introl eq_refl)) Hesc Herr)
    as [m Hm].
  destruct (vehicle_required_attr d "model"
              (or_intror (or_intror (or_introl eq_refl))) Hesc Herr) as [mo Hmo].
  unfold Vehicle.check_required_fields, raise_if_empty, empty_fields, py_getattr, getattr. cbn [call].
  rewrite Hy, Hm, Hmo. reflexivity.
Qed.

End VehicleCheck.

(** X7: the [check_required_fields] of [Vehicle] and of [Customer] never
    reject.  [year], [make] and [model] are declared without default and
    typed [str], so whenever the check runs they hold strings; [Customer]
    passes an empty collection of required fields.  Both classes validate
    every raw value exactly as they would without the check. *)
Theorem checks_that_never_reject {L : Library} :
  (forall j, run Vehicle.cls j = run (BaseModel "Vehicle" Vehicle.fields []) j)
  /\ (forall j, run Customer.cls j = run (BaseModel "Customer" Customer.fields []) j).
Proof.
  split; intros j; destruct j; try reflexivity.
  unfold Vehicle.cls. cbn [run BaseModel].
  destruct (validate_fields Vehicle.fields entries [] []) eqn:E; try reflexivity.
  cbn [apply_validators]. rewrite (vehicle_check_passes _ _ E). reflexivity.
Qed.

(** ** One record or a list of records *)

Lemma items_not_ok (t : tyv) (items : list json) :
  forall i vals errs, errs <> [] -> is_ok (validate_items t i items vals errs) = false.
Proof.
  intros i vals errs Herrs. destruct errs as [|e errs]; [contradiction|].
  apply (rejects_not_ok _ e). apply items_keep. left. reflexivity.
Qed.

Lemma validate_items_in_order (t : tyv) (items : list json) :
  reports_errors t ->
  forall i vals errs vs,
    validate_items t i items vals errs = Ok vs ->
    exists ws, vs = vals ++ ws /\ Forall2 (fun x w => run t x = Ok w) items ws.
Proof.
  intros Ht. induction items as [|x rest IH]; intros i vals errs vs; simpl.
  - destruct errs; [|discriminate]. intros H. injection H as <-.
    exists []. split; [symmetry; apply app_nil_r|constructor].
  - destruct (run t x) as [w|es|e] eqn:E; simpl.
    + intros H. destruct (IH _ _ _ _ H) as [ws [-> Hws]].
      exists (w :: ws). split; [rewrite <- app_assoc; reflexivity|].
      constructor; assumption.
    + intros H. exfalso.
      assert (Hne : errs ++ map (push (LIndex i)) es <> []).
      { destruct es as [|e0 es]; [destruct (Ht x E)|]. destruct errs; discriminate. }
      pose proof (items_not_ok t rest (S i) vals _ Hne) as Hno.
      rewrite H in Hno. discriminate Hno.
    + discriminate.
Qed.

Lemma list_keeps_shape (t : tyv) (j : json) (v : value) :
  reports_errors t -> run (ListOf t) j = Ok v ->
  exists items vs, j = JList items /\ v = VList vs
                   /\ Forall2 (fun x w => run t x = Ok w) items vs.
Proof.
  intros Ht. destruct j; try discriminate. cbn [run ListOf].
  destruct (validate_items t 0 items [] []) as [vs| |] eqn:E; try discriminate.
  intros H. injection H as <-.
  destruct (validate_items_in_order t items Ht _ _ _ _ E) as [ws [-> Hws]].
  exists items, ws. repeat split. exact Hws.
Qed.

Lemma one_or_many_shape (cls : string) (fs : list field) (after : list validator)
    (members : list tyv) (j : json) (v : value) :
  let rec := BaseModel cls fs after in
  members = [rec; ListOf rec] \/ members = [Str; rec; ListOf rec] ->
  run (Union members) j = Ok v -> keeps_shape rec j v.
Proof.
  intros rec Hmembers Hrun.
  destruct (validate_union_member members j v [] Hrun) as [t [Hin Ht]].
  assert (Hcases : t = Str \/ t = rec \/ t = ListOf rec).
  { destruct Hmembers as [-> | ->]; cbn [In] in Hin.
    - destruct Hin as [<- | [<- | []]]; auto.
    - destruct Hin as [<- | [<- | [<- | []]]]; auto. }
  destruct Hcases as [-> | [-> | ->]].
  - destruct j; try discriminate Ht. injection Ht as <-. reflexivity.
  - destruct j; try discriminate Ht. exact Ht.
  - destruct (list_keeps_shape rec j v (reports_BaseModel cls fs after) Ht)
      as [items [vs [-> [-> Hall]]]].
    exists vs. split; [reflexivity|exact Hall].
Qed.

(** X8: the fields declared as one record or a list of records --
    [Prospect.vehicle], [Vehicle.color_combination], [Contact.name] and
    [Contact.phone] -- keep the shape they were given.  A mapping becomes
    the one record, not a list of one; a list becomes the list of the
    records of its items, as many and in the same order; a string (where
    the union has [str]) stays that string. *)
Theorem one_or_many_keeps_its_shape {L : Library} (rec : tyv) (members : list tyv)
    (j : json) (v : value) :
  In (rec, members)
     [ (Vehicle.cls, [Vehicle.cls; ListOf Vehicle.cls]);
       (ColorCombination.cls, [ColorCombination.cls; ListOf ColorCombination.cls]);
       (Name.cls, [Str; Name.cls; ListOf Name.cls]);
       (Phone.cls, [Str; Phone.cls; ListOf Phone.cls]) ] ->
  run (Union members) j = Ok v -> keeps_shape rec j v.
Proof.
  intros Hin. cbn [In] in Hin.
  destruct Hin as [H | [H | [H | [H | []]]]]; injection H as <- <-.
  - unfold Vehicle.cls. apply one_or_many_shape. left. reflexivity.
  - unfold ColorCombination.cls. apply one_or_many_shape. left. reflexivity.
  - unfold Name.cls. apply one_or_many_shape. right. reflexivity.
  - unfold Phone.cls. apply one_or_many_shape. right. reflexivity.
Qed.

Lemma one_or_many_keeps_its_shape_witness :
  keeps_shape Name.cls
    (JList [JDict [("#text", JStr "John")]; JDict [("@part", JStr "last")]])
    (VList [ VModel "Name" [("part", VNone); ("type", VNone); ("name", VStr "John")];
             VModel "Name" [("part", VStr "last"); ("type", VNone); ("name", VNone)] ])
  /\ keeps_shape Name.cls (JDict [("#text", JStr "John")])
       (VModel "Name" [("part", VNone); ("type", VNone); ("name", VStr "John")]).
Proof.
  split.
  - apply (@one_or_many_keeps_its_shape sample_library Name.cls
             [Str; Name.cls; ListOf Name.cls]).
    + right. right. left. reflexivity.
    + reflexivity.
  - apply (@one_or_many_keeps_its_shape sample_library Name.cls
             [Str; Name.cls; ListOf Name.cls]).
    + right. right. left. reflexivity.
    + reflexivity.
Defined.

(** ** Validating a re-flattened record again *)

Lemma dict_get_absent {A : Type} (key : string) (l : list (string * A)) :
  ~ In key (map fst l) -> dict_get key l = None.
Proof.
  induction l as [|[k x] rest IH]; simpl; [reflexivity|].
  intros H. destruct (String.eqb key k) eqn:E.
  - apply String.eqb_eq in E. exfalso. apply H. left. symmetry. exact E.
  - apply IH. intros Hin. apply H. right. exact Hin.
Qed.

Lemma attrs_of_keys (fs : list field) (d : list (string * json)) (k : string) :
  In k (map fst (attrs_of fs d)) -> In k (map fname fs).
Proof.
  induction fs as [|f rest IH]; [intros []|].
  unfold attrs_of. cbn [flat_map]. fold (attrs_of rest d).
  rewrite map_app, in_app_iff. intros [H|H].
  - left. destruct (validate_field f d); simpl in H; try contradiction.
    destruct H as [H|[]]. exact H.
  - right. apply IH. exact H.
Qed.

Lemma dump_keys (attrs : list (string * value)) :
  map fst (map (fun kv : string * value => let '(k, x) := kv in (k, model_dump x)) attrs)
  = map fst attrs.
Proof.
  induction attrs as [|[k x] rest IH]; simpl; [reflexivity|]. rewrite IH. reflexivity.
Qed.

Lemma all_fields_default (fs : list field) (d : list (string * json)) :
  Forall (fun f => validate_field f d = Ok VNone) fs ->
  validate_fields fs d [] [] = Ok (map (fun f => (fname f, VNone)) fs).
Proof.
  induction 1 as [|f rest Hf _ IH]; [reflexivity|].
  cbn [validate_fields]. rewrite Hf, validate_fields_acc, IH. reflexivity.
Qed.

(** A class all of whose fields are read from an alias that is no field's
    name finds none of its keys in its own re-flattened record. *)
Lemma redump_of_aliased (cls : string) (fs : list field) :
  Forall (fun f => default f = Some VNone /\ ~ In (fkey f) (map fname fs)) fs ->
  redump_is_blank (BaseModel cls fs []) cls fs.
Proof.
  intros Hfs d v. cbn [run BaseModel].
  destruct (validate_fields fs d [] []) as [attrs| |] eqn:E; try discriminate.
  cbn [apply_validators]. intros H. injection H as <-.
  destruct (fields_ok_attrs _ _ _ E) as [_ [_ ->]].
  cbn [model_dump run BaseModel].
  rewrite all_fields_default; [reflexivity|].
  rewrite Forall_forall in *. intros f Hf. destruct (Hfs f Hf) as [Hdef Hkey].
  apply absent_field_takes_default; [|exact Hdef].
  apply dict_get_absent. rewrite dump_keys. intros Hin. apply Hkey.
  exact (attrs_of_keys fs d _ Hin).
Qed.

Ltac aliased_only :=
  repeat first
    [ apply Forall_nil
    | apply Forall_cons
    | split; [reflexivity | vm_compute; intuition discriminate] ].

(** X9: [Id], [Odometer], [ImageTag], [Price], [Name], [Email], [Phone]
    and [Street] read every field from an attribute or text key ([@...],
    [#text]) and re-flatten it under its field name.  Validating the
    re-flattened tree of any validated record of these classes succeeds
    and gives the record with every attribute [None]: what was read is
    not read back. *)
Theorem aliased_classes_do_not_read_their_dump {L : Library} :
  redump_is_blank Id.cls "Id" Id.fields
  /\ redump_is_blank Odometer.cls "Odometer" Odometer.fields
  /\ redump_is_blank ImageTag.cls "ImageTag" ImageTag.fields
  /\ redump_is_blank Price.cls "Price" Price.fields
  /\ redump_is_blank Name.cls "Name" Name.fields
  /\ redump_is_blank Email.cls "Email" Email.fields
  /\ redump_is_blank Phone.cls "Phone" Phone.fields
  /\ redump_is_blank Street.cls "Street" Street.fields.
Proof.
  split; [|split; [|split; [|split; [|split; [|split; [|split]]]]]].
  - unfold Id.cls. apply redump_of_aliased. unfold Id.fields. aliased_only.
  - unfold Odometer.cls. apply redump_of_aliased. unfold Odometer.fields. aliased_only.
  - unfold ImageTag.cls. apply redump_of_aliased. unfold ImageTag.fields. aliased_only.
  - unfold Price.cls. apply redump_of_aliased. unfold Price.fields. aliased_only.
  - unfold Name.cls. apply redump_of_aliased. unfold Name.fields. aliased_only.
  - unfold Email.cls. apply redump_of_aliased. unfold Email.fields. aliased_only.
  - unfold Phone.cls. apply redump_of_aliased. unfold Phone.fields. aliased_only.
  - unfold Street.cls. apply redump_of_aliased. unfold Street.fields. aliased_only.
Qed.

Lemma aliased_classes_do_not_read_their_dump_witness :
  run Name.cls (JDict [("@part", JStr "first"); ("#text", JStr "John")])
  = Ok (VModel "Name" [("part", VStr "first"); ("type", VNone); ("name", VStr "John")])
  /\ run Name.cls
       (model_dump (VModel "Name" [("part", VStr "first"); ("type", VNone); ("name", VStr "John")]))
     = Ok (VModel "Name" [("part", VNone); ("type", VNone); ("name", VNone)]).
Proof.
  split; [reflexivity|].
  destruct (@aliased_classes_do_not_read_their_dump sample_library)
    as [_ [_ [_ [_ [H _]]]]].
  exact (H [("@part", JStr "first"); ("#text", JStr "John")] _ eq_refl).
Defined.

Section TimeFrameAgain.
Context {L : Library}.

Lemma description_value (d : list (string * json)) (v : value) :
  validate_field (plain "description" (Optional Str) []) d = Ok v ->
  v = VNone \/ exists s, v = VStr s.
Proof.
  unfold validate_field. cbn [plain fkey falias fname annotation validators default].
  destruct (dict_get "description" d) as [raw|].
  - destruct raw; cbn; try discriminate; intros H; injection H as <-.
    + left. reflexivity.
    + right. exists s. reflexivity.
  - intros H. injection H as <-. left. reflexivity.
Qed.

Lemma earliest_date_value (d : list (string * json)) (v : value) :
  validate_field TimeFrame.earliest_date d = Ok v ->
  (dict_get "earliest_date" d = None /\ v = VNone)
  \/ (exists s, dict_get "earliest_date" d = Some (JStr s)
                /\ fromisoformat_parses s = true /\ v = VStr s).
Proof.
  rewrite earliest_date_outcome.
  destruct (dict_get "earliest_date" d) as [raw|].
  - destruct raw; try discriminate.
    destruct (fromisoformat_parses s) eqn:E; try discriminate.
    intros H. injection H as <-. right. exists s. repeat split. exact E.
  - intros H. injection H as <-. left. split; reflexivity.
Qed.

Lemma latest_date_value (d : list (string * json)) (v : value) :
  validate_field TimeFrame.latest_date d = Ok v ->
  (dict_get "latest_date" d = None /\ v = VNone)
  \/ (exists s, dict_get "latest_date" d = Some (JStr s)
                /\ fromisoformat_parses s = true /\ v = VStr s).
Proof.
  rewrite latest_date_outcome.
  destruct (dict_get "latest_date" d) as [raw|].
  - destruct raw; try discriminate.
    destruct (fromisoformat_parses s) eqn:E; try discriminate.
    intros H. injection H as <-. right. exists s. repeat split. exact E.
  - intros H. injection H as <-. left. split; reflexivity.
Qed.

(** The attributes of a validated [TimeFrame]. *)
Lemma timeframe_validated (d : list (string * json)) (v : value) :
  run TimeFrame.cls (JDict d) = Ok v ->
  exists desc e l,
    v = VModel "TimeFrame" [("description", desc); ("earliest_date", e); ("latest_date", l)]
    /\ validate_field (plain "description" (Optional Str) []) d = Ok desc
    /\ validate_field TimeFrame.earliest_date d = Ok e
    /\ validate_field TimeFrame.latest_date d = Ok l.
Proof.
  unfold TimeFrame.cls. cbn [run BaseModel].
  destruct (validate_fields TimeFrame.fields d [] []) as [attrs| |] eqn:E; try discriminate.
  intros H.
  assert (Hv : v = VModel "TimeFrame" attrs).
  { apply (apply_validators_checks [TimeFrame.validate_dates]); [|exact H].
    constructor; [apply validate_dates_checks|constructor]. }
  destruct (fields_ok_attrs _ _ _ E) as [Hesc [Herr Hattrs]].
  destruct (field_ok TimeFrame.fields d (plain "description" (Optional Str) []))
    as [desc Hdesc]; try assumption.
  { unfold TimeFrame.fields. in_fields. }
  { reports. }
  destruct (field_ok TimeFrame.fields d TimeFrame.earliest_date) as [e He]; try assumption.
  { unfold TimeFrame.fields. in_fields. }
  { unfold TimeFrame.earliest_date. reports. }
  destruct (field_ok TimeFrame.fields d TimeFrame.latest_date) as [l Hl]; try assumption.
  { unfold TimeFrame.fields. in_fields. }
  { unfold TimeFrame.latest_date. reports. }
  exists desc, e, l. repeat split; try assumption.
  rewrite Hv, Hattrs. unfold attrs_of, TimeFrame.fields. cbn [flat_map].
  rewrite Hdesc, He, Hl. reflexivity.
Qed.

End TimeFrameAgain.

(** X10: a validated [TimeFrame] that holds both dates validates again
    from its re-flattened tree, to the same record.  One that holds a
    single date does not: the re-flattened tree carries the other date as
    an explicit null, and the date validator's parse of it raises an
    exception that is not a validation error. *)
Theorem timeframe_dump_validates_again_with_both_dates {L : Library}
    (d : list (string * json)) (v : value) :
  run TimeFrame.cls (JDict d) = Ok v ->
  (dict_get "earliest_date" d <> None -> dict_get "latest_date" d <> None ->
   run TimeFrame.cls (model_dump v) = Ok v)
  /\ (dict_get "earliest_date" d = None \/ dict_get "latest_date" d = None ->
      run TimeFrame.cls (model_dump v)
      = Escaped (TypeError "fromisoformat: argument must be str")).
Proof.
  intros Hrun.
  destruct (timeframe_validated d v Hrun) as [desc [e [l [-> [Hdesc [He Hl]]]]]].
  apply description_value in Hdesc. apply earliest_date_value in He.
  apply latest_date_value in Hl.
  split.
  - intros Hearly Hlate.
    destruct He as [[He _]|[s1 [_ [P1 ->]]]]; [contradiction|].
    destruct Hl as [[Hl _]|[s2 [_ [P2 ->]]]]; [contradiction|].
    destruct Hdesc as [-> | [s ->]]; cbn;
      unfold TimeFrame.validate_earliest_date, TimeFrame.validate_latest_date,
        is_iso8601, datetime_fromisoformat;
      rewrite P1, P2; reflexivity.
  - intros Hone.
    destruct He as [[_ ->]|[s1 [He [P1 ->]]]].
    + destruct Hdesc as [-> | [s ->]]; reflexivity.
    + destruct Hone as [Hone|Hone]; [rewrite Hone in He; discriminate He|].
      destruct Hl as [[_ ->]|[s2 [Hl _]]]; [|rewrite Hone in Hl; discriminate Hl].
      destruct Hdesc as [-> | [s ->]]; cbn;
        unfold TimeFrame.validate_earliest_date, is_iso8601, datetime_fromisoformat;
        rewrite P1; reflexivity.
Qed.

Lemma timeframe_dump_validates_again_with_both_dates_witness :
  run TimeFrame.cls
    (model_dump (VModel "TimeFrame"
                   [ ("description", VNone); ("earliest_date", VStr "2024-01-01");
                     ("latest_date", VStr "2024-01-31") ]))
  = Ok (VModel "TimeFrame"
          [ ("description", VNone); ("earliest_date", VStr "2024-01-01");
            ("latest_date", VStr "2024-01-31") ])
  /\ run TimeFrame.cls
       (model_dump (VModel "TimeFrame"
                      [ ("description", VNone); ("earliest_date", VNone);
                        ("latest_date", VStr "2024-01-31") ]))
     = Escaped (TypeError "fromisoformat: argument must be str").
Proof.
  split.
  - apply (proj1 (@timeframe_dump_validates_again_with_both_dates sample_library
                    [("earliest_date", JStr "2024-01-01"); ("latest_date", JStr "2024-01-31")]
                    _ eq_refl)); discriminate.
  - apply (proj2 (@timeframe_dump_validates_again_with_both_dates sample_library
                    [("latest_date", JStr "2024-01-31")] _ eq_refl)).
    left. reflexivity.
Defined.

(** ** Where the errors of the program are located *)

(** X12: the list of a validation error of the program is never empty,
    and each of its entries is located under the key [adf]. *)
Theorem validation_errors_are_under_adf {L : Library} (data : json) (errs : list error) :
  try_block (Loaded data) = inl (ValidationError errs) ->
  errs <> [] /\ forall e, In e errs -> exists l, loc e = LKey "adf" :: l.
Proof.
  cbn [try_block]. unfold new_Lead. destruct data; try discriminate.
  destruct (run Lead.cls (JDict entries)) eqn:R; try discriminate.
  intros H. injection H as ->.
  unfold Lead.cls, Lead.fields in R. cbn [run BaseModel validate_fields] in R.
  set (f := plain "adf" (Optional ADF.cls) []) in R.
  pose proof (field_errors_loc f entries) as Hloc.
  destruct (validate_field f entries) as [v|es|e]; try discriminate R.
  destruct es as [|e0 es]; [discriminate R|].
  cbn in R. injection R as <-.
  split; [discriminate|]. intros e He. exact (Hloc e He).
Qed.

Lemma validation_errors_are_under_adf_witness :
  [ at_path ["adf"; "prospect"; "vehicle"; vehicle_tag; "model"] EMissing;
    at_path ["adf"; "prospect"; "vehicle"; vehicle_list_tag] EListType ] <> []
  /\ forall e,
       In e [ at_path ["adf"; "prospect"; "vehicle"; vehicle_tag; "model"] EMissing;
              at_path ["adf"; "prospect"; "vehicle"; vehicle_list_tag] EListType ] ->
       exists l, loc e = LKey "adf" :: l.
Proof.
  exact (@validation_errors_are_under_adf sample_library
           (in_prospect [("vehicle", JDict no_model)]) _ eq_refl).
Defined.

(** ** The country of an address *)

Lemma country_in_fields {L : Library} : In Address_country Address.fields.
Proof. unfold Address.fields, Address_country. in_fields. Qed.

(** X14: a country given as a string is kept when the country lookup finds
    it and is otherwise rejected with the country message, and so is the
    address. *)
Theorem country_must_be_known {L : Library} (d : list (string * json)) (s : string) :
  dict_get "country" d = Some (JStr s) ->
  (countries_lookup_finds s = true -> validate_field Address_country d = Ok (VStr s))
  /\ (countries_lookup_finds s = false ->
      validate_field Address_country d
      = Invalid [at_path ["country"] (EValueError "Invalid Country input")]
      /\ rejects (run Address.cls (JDict d))
                 (at_path ["country"] (EValueError "Invalid Country input"))).
Proof.
  intros Hget.
  assert (Hf : validate_field Address_country d
               = if countries_lookup_finds s then Ok (VStr s)
                 else Invalid [at_path ["country"] (EValueError "Invalid Country input")]).
  { unfold validate_field.
    cbn [Address_country plain fkey falias fname annotation validators].
    rewrite Hget. cbn [run Optional Str apply_validators].
    unfold Address.validate_country, is_valid_iso_3166_alpha_2, countries_lookup. cbn [call].
    destruct (countries_lookup_finds s); reflexivity. }
  split; intros Hs; rewrite Hs in Hf; [exact Hf|].
  split; [exact Hf|].
  unfold Address.cls.
  apply (model_rejects "Address" Address.fields [] d Address_country).
  - apply country_in_fields.
  - rewrite Hf. left. reflexivity.
Qed.

Lemma country_must_be_known_witness :
  validate_field Address_country [("country", JStr "CA")] = Ok (VStr "CA")
  /\ rejects (run Address.cls (JDict [("country", JStr "Atlantis")]))
             (at_path ["country"] (EValueError "Invalid Country input")).
Proof.
  split.
  - apply (proj1 (@country_must_be_known sample_library
                    [("country", JStr "CA")] "CA" eq_refl)). reflexivity.
  - apply (proj2 (@country_must_be_known sample_library
                    [("country", JStr "Atlantis")] "Atlantis" eq_refl)). reflexivity.
Defined.

(** ** Nothing is required above the vehicle *)

Lemma blank_record (cls : string) (fs : list field) (d : list (string * json)) :
  Forall (fun f => exists t, annotation f = Optional t /\ validators f = []
                             /\ default f = Some VNone /\ absent_or_null (fkey f) d) fs ->
  run (BaseModel cls fs []) (JDict d) = Ok (blank cls fs).
Proof.
  intros Hfs. cbn [run BaseModel]. rewrite all_fields_default; [reflexivity|].
  rewrite Forall_forall in *. intros f Hf.
  destruct (Hfs f Hf) as [t [Hann [Hval [Hdef Hkey]]]].
  unfold validate_field. rewrite Hann, Hval, Hdef.
  destruct Hkey as [H|H]; rewrite H; reflexivity.
Qed.

Ltac blank_fields H :=
  repeat first
    [ apply Forall_nil
    | apply Forall_cons
    | eexists; split; [reflexivity|split; [reflexivity|split; [reflexivity|]]];
      apply H; in_fields ].

(** X15: [Lead], [ADF] and [Prospect] ask for nothing.  A document whose
    [adf] is absent or null is accepted and printed as the record without
    content, and so are an [adf] without prospect and a prospect in which
    every key of its fields -- the vehicle among them -- is absent or null,
    whatever other keys the mappings hold. *)
Theorem empty_levels_are_accepted {L : Library} :
  (forall top, absent_or_null "adf" top ->
     main (Loaded (JDict top))
     = [Shown (VModel "Lead" [("adf", VNone)]); Dumped (JDict [("adf", JNull)])])
  /\ (forall a, absent_or_null "prospect" a ->
        run ADF.cls (JDict a) = Ok (VModel "ADF" [("prospect", VNone)]))
  /\ (forall p,
        (forall key,
           In key ["@status"; "id"; "requestdate"; "vehicle"; "customer"; "vendor"; "provider"] ->
           absent_or_null key p) ->
        run Prospect.cls (JDict p)
        = Ok (VModel "Prospect"
                [ ("status", VNone); ("id", VNone); ("request_date", VNone);
                  ("vehicle", VNone); ("customer", VNone); ("vendor", VNone);
                  ("provider", VNone) ])).
Proof.
  split; [|split].
  - intros top H. unfold main, try_block, new_Lead.
    assert (R : run Lead.cls (JDict top) = Ok (blank "Lead" Lead.fields)).
    { unfold Lead.cls. apply blank_record. unfold Lead.fields.
      repeat constructor. eexists. repeat split. exact H. }
    rewrite R. reflexivity.
  - intros a H.
    assert (R : run ADF.cls (JDict a) = Ok (blank "ADF" ADF.fields)).
    { unfold ADF.cls. apply blank_record. unfold ADF.fields.
      repeat constructor. eexists. repeat split. exact H. }
    rewrite R. reflexivity.
  - intros p H.
    assert (R : run Prospect.cls (JDict p) = Ok (blank "Prospect" Prospect.fields)).
    { unfold Prospect.cls. apply blank_record.
      unfold Prospect.fields, Prospect.request_date. blank_fields H. }
    rewrite R. reflexivity.
Qed.

Lemma empty_levels_are_accepted_witness :
  main (Loaded (JDict [("comment", JStr "no lead today")]))
  = [Shown (VModel "Lead" [("adf", VNone)]); Dumped (JDict [("adf", JNull)])]
  /\ run ADF.cls (JDict [("prospect", JNull)]) = Ok (VModel "ADF" [("prospect", VNone)]).
Proof.
  destruct (@empty_levels_are_accepted sample_library) as [Hlead [Hadf _]].
  split.
  - apply Hlead. left. reflexivity.
  - apply Hadf. right. reflexivity.
Defined.

(** ** The numbers of a validated record *)

Lemma validated_attr (cls : string) (fs : list field) (d : list (string * json))
    (v : value) (f : field) :
  run (BaseModel cls fs []) (JDict d) = Ok v ->
  In f fs -> named_once fs f -> reports_errors (annotation f) ->
  exists w, validate_field f d = Ok w /\ getattr v (fname f) = Some w.
Proof.
  cbn [run BaseModel].
  destruct (validate_fields fs d [] []) as [attrs| |] eqn:E; try discriminate.
  cbn [apply_validators]. intros H Hin Honce Hrep. injection H as <-.
  destruct (fields_ok_attrs _ _ _ E) as [Hesc [Herr ->]].
  destruct (field_ok fs d f Hin Hesc Herr Hrep) as [w Hw].
  exists w. split; [exact Hw|]. exact (attr_of_field fs d f w Hw Hin Honce).
Qed.

Lemma null_or_not (raw : json) : raw = JNull \/ raw <> JNull.
Proof. destruct raw; [left; reflexivity|right; discriminate..]. Qed.

Section Numbers.
Context {L : Library}.

Lemma weighting_value (d : list (string * json)) (w : value) :
  validate_field Option.weighting d = Ok w ->
  w = VNone \/ exists z, w = VInt z /\ (-100 < z < 100)%Z.
Proof.
  unfold validate_field.
  cbn [Option.weighting plain fkey falias fname annotation validators default].
  destruct (dict_get "weighting" d) as [raw|].
  - destruct (null_or_not raw) as [-> | Hraw]; [discriminate|].
    rewrite (optional_not_null _ _ Hraw). cbn [run Int].
    destruct (validate_int raw) as [z| |]; try discriminate.
    cbn [apply_validators]. rewrite validate_weighting_int.
    destruct ((z >=? 100) || (z <=? -100))%Z eqn:E; [discriminate|].
    intros H. injection H as <-. right. exists z. split; [reflexivity|].
    apply orb_false_iff in E. destruct E as [E1 E2].
    rewrite Z.geb_leb in E1. apply Z.leb_gt in E1. apply Z.leb_gt in E2. lia.
  - intros H. injection H as <-. left. reflexivity.
Qed.

Lemma preference_value (d : list (string * json)) (w : value) :
  validate_field ColorCombination_preference d = Ok w ->
  w = VNone \/ exists z, w = VInt z /\ (1 <= z)%Z.
Proof.
  unfold validate_field.
  cbn [ColorCombination_preference plain fkey falias fname annotation validators default].
  destruct (dict_get "preference" d) as [raw|].
  - destruct (null_or_not raw) as [-> | Hraw]; [discriminate|].
    rewrite (optional_not_null _ _ Hraw). cbn [run Int].
    destruct (validate_int raw) as [z| |]; try discriminate.
    cbn [apply_validators]. rewrite validate_preference_int.
    destruct (z <? 1)%Z eqn:E; [discriminate|].
    intros H. injection H as <-. right. exists z. split; [reflexivity|].
    apply Z.ltb_ge in E. exact E.
  - intros H. injection H as <-. left. reflexivity.
Qed.

Lemma sequence_value (d : list (string * json)) (w : value) :
  validate_field Id.sequence d = Ok w ->
  w = VNone \/ exists z, w = VInt z /\ (0 < z)%Z.
Proof.
  unfold validate_field.
  cbn [Id.sequence aliased fkey falias fname annotation validators default].
  destruct (dict_get "@sequence" d) as [raw|].
  - destruct (null_or_not raw) as [-> | Hraw].
    + intros H. injection H as <-. left. reflexivity.
    + rewrite (optional_not_null _ _ Hraw). cbn [run PositiveInt].
      destruct (validate_int raw) as [z| |]; try discriminate.
      destruct (0 <? z)%Z eqn:E; [|discriminate].
      intros H. injection H as <-. right. exists z. split; [reflexivity|].
      apply Z.ltb_lt in E. exact E.
  - intros H. injection H as <-. left. reflexivity.
Qed.

End Numbers.

(** X16: what a validated record holds in its constrained numeric
    attributes.  The weighting of an [Option] is [None] or an integer
    strictly between -100 and 100, the preference of a [ColorCombination]
    is [None] or an integer from 1 upwards, and the sequence of an [Id] is
    [None] or a positive integer; no other value gets past validation. *)
Theorem validated_numbers_are_in_range {L : Library} (d : list (string * json)) (v : value) :
  (run Option.cls (JDict d) = Ok v ->
   exists w, getattr v "weighting" = Some w
             /\ (w = VNone \/ exists z, w = VInt z /\ (-100 < z < 100)%Z))
  /\ (run ColorCombination.cls (JDict d) = Ok v ->
      exists w, getattr v "preference" = Some w
                /\ (w = VNone \/ exists z, w = VInt z /\ (1 <= z)%Z))
  /\ (run Id.cls (JDict d) = Ok v ->
      exists w, getattr v "sequence" = Some w
                /\ (w = VNone \/ exists z, w = VInt z /\ (0 < z)%Z)).
Proof.
  split; [|split]; intros Hrun.
  - destruct (validated_attr "Option" Option.fields d v Option.weighting Hrun)
      as [w [Hw Hattr]].
    + unfold Option.fields. in_fields.
    + unfold Option.fields. named_once_in.
    + unfold Option.weighting. reports.
    + exists w. split; [exact Hattr|exact (weighting_value d w Hw)].
  - destruct (validated_attr "ColorCombination" ColorCombination.fields d v
                ColorCombination_preference Hrun) as [w [Hw Hattr]].
    + apply preference_in_fields.
    + unfold ColorCombination.fields. named_once_in.
    + unfold ColorCombination_preference. reports.
    + exists w. split; [exact Hattr|exact (preference_value d w Hw)].
  - destruct (validated_attr "Id" Id.fields d v Id.sequence Hrun) as [w [Hw Hattr]].
    + unfold Id.fields. in_fields.
    + unfold Id.fields. named_once_in.
    + unfold Id.sequence. reports.
    + exists w. split; [exact Hattr|exact (sequence_value d w Hw)].
Qed.

Lemma validated_numbers_are_in_range_witness :
  exists w,
    getattr (VModel "Option"
               [ ("option_name", VNone); ("manufacture_code", VNone); ("stock", VNone);
                 ("weighting", VInt 50); ("price", VNone) ])
            "weighting" = Some w
    /\ (w = VNone \/ exists z, w = VInt z /\ (-100 < z < 100)%Z).
Proof.
  exact (proj1 (@validated_numbers_are_in_range sample_library
                  [("weighting", JStr "50")] _) eq_refl).
Defined.

(** ** The name of the JSON file (xmltodict1.py) *)

Lemma prefix_xml_extends (t : string) (c : ascii) (rest : string) :
  String.prefix "xml" (t ++ String c "") = false ->
  String.prefix "xml" (t ++ String c ("xml" ++ rest)) = false.
Proof.
  destruct t as [|a [|b [|c' t']]]; cbn [String.prefix append].
  - intros _. destruct (ascii_dec "x" c); [|reflexivity].
    destruct (ascii_dec "m" "x") as [E|_]; [discriminate E|reflexivity].
  - intros _. destruct (ascii_dec "x" a); [|reflexivity].
    destruct (ascii_dec "m" c); [|reflexivity].
    destruct (ascii_dec "l" "x") as [E|_]; [discriminate E|reflexivity].
  - destruct (ascii_dec "x" a); [|reflexivity].
    destruct (ascii_dec "m" b); [|reflexivity].
    destruct (ascii_dec "l" c); [discriminate|reflexivity].
  - destruct (ascii_dec "x" a); [|reflexivity].
    destruct (ascii_dec "m" b); [|reflexivity].
    destruct (ascii_dec "l" c'); [|reflexivity].
    destruct (t' ++ String c "")%string; discriminate.
Qed.

Lemma mentions_tail (needle : string) (c : ascii) (hay : string) :
  mentions needle (String c hay) = false ->
  String.prefix needle (String c hay) = false /\ mentions needle hay = false.
Proof. cbn [mentions]. intros H. apply orb_false_iff in H. exact H. Qed.

Lemma mentions_prefix (needle hay : string) :
  mentions needle hay = false -> String.prefix needle hay = false.
Proof.
  destruct hay; cbn [mentions]; intros H; apply orb_false_iff in H; apply H.
Qed.

Lemma string_app_assoc (a b c : string) :
  ((a ++ b) ++ c = a ++ (b ++ c))%string.
Proof. induction a as [|h t IH]; cbn [append]; [reflexivity|]. rewrite IH. reflexivity. Qed.

Lemma sub_dot_xml_step (c : ascii) (rest : string) :
  sub_dot_xml 0 (String c rest) =
  if negb (Ascii.eqb c (ascii_of_nat 10)) && String.prefix "xml" rest
  then sub_dot_xml 3 rest
  else String c (sub_dot_xml 0 rest).
Proof. reflexivity. Qed.

(** A match of the pattern after a stem without [xml] is dropped, and the
    stem is kept. *)
Lemma sub_dot_xml_stem (stem : string) (c : ascii) (rest : string) :
  mentions "xml" (stem ++ String c "") = false -> c <> ascii_of_nat 10 ->
  sub_dot_xml 0 (stem ++ String c ("xml" ++ rest)) = (stem ++ sub_dot_xml 0 rest)%string.
Proof.
  intros Hstem Hc. induction stem as [|h t IH].
  - cbn [append]. rewrite sub_dot_xml_step.
    replace (Ascii.eqb c (ascii_of_nat 10)) with false
      by (symmetry; apply Ascii.eqb_neq; exact Hc).
    replace (String.prefix "xml" (String "x" (String "m" (String "l" rest)))) with true
      by (destruct rest; reflexivity).
    reflexivity.
  - change ((String h t ++ String c "")%string) with (String h (t ++ String c "")) in Hstem.
    destruct (mentions_tail _ _ _ Hstem) as [_ Htail].
    change ((String h t ++ String c ("xml" ++ rest))%string)
      with (String h (t ++ String c ("xml" ++ rest))).
    rewrite sub_dot_xml_step.
    rewrite (prefix_xml_extends t c rest (mentions_prefix _ _ Htail)).
    rewrite andb_false_r. rewrite (IH Htail). reflexivity.
Qed.

(** X17: the name of the file [CreateJSONObject] writes.  For a path that
    ends in a character (not a newline) followed by [xml], with no [xml]
    before, the ending is replaced by [.json]: [lead1.xml] gives
    [lead1.json].  The dot of the pattern is a wildcard and every match is
    dropped, not the final one alone: an earlier [xml] that follows some
    character disappears from the name with that character. *)
Theorem json_file_name_drops_every_match (stem : string) (c : ascii) :
  mentions "xml" (stem ++ String c "") = false -> c <> ascii_of_nat 10 ->
  json_file_name (stem ++ String c "xml") = (stem ++ ".json")%string
  /\ (forall inner c',
        mentions "xml" (inner ++ String c' "") = false -> c' <> ascii_of_nat 10 ->
        json_file_name (stem ++ String c ("xml" ++ inner ++ String c' "xml"))
        = (stem ++ inner ++ ".json")%string).
Proof.
  assert (Hend : forall s a,
             mentions "xml" (s ++ String a "") = false -> a <> ascii_of_nat 10 ->
             sub_dot_xml 0 (s ++ String a "xml") = s).
  { intros s a Hs Ha. pose proof (sub_dot_xml_stem s a "" Hs Ha) as H.
    cbn [append sub_dot_xml] in H. rewrite H.
    induction s as [|h t IH]; [reflexivity|].
    cbn [append]. f_equal. clear. induction t; cbn [append]; congruence. }
  intros Hstem Hc. unfold json_file_name. split.
  - rewrite (Hend stem c Hstem Hc). reflexivity.
  - intros inner c' Hinner Hc'.
    rewrite (sub_dot_xml_stem stem c _ Hstem Hc).
    rewrite (Hend inner c' Hinner Hc').
    rewrite string_app_assoc. reflexivity.
Qed.

Lemma json_file_name_drops_every_match_witness :
  json_file_name "lead1.xml" = "lead1.json"
  /\ json_file_name "leads/xml/lead1.xml" = "leads/lead1.json".
Proof.
  split.
  - apply (proj1 (json_file_name_drops_every_match "lead1" "."%char eq_refl
                    ltac:(discriminate))).
  - apply (proj2 (json_file_name_drops_every_match "leads" "/"%char eq_refl
                    ltac:(discriminate))
             "/lead1" "."%char eq_refl).
    discriminate.
Defined.

(** ** An exception that escapes ends the run *)

Lemma field_escapes (f : field) (d : list (string * json)) (raw : json) :
  dict_get (fkey f) d = Some raw -> escapes (run (annotation f) raw) = true ->
  escapes (validate_field f d) = true.
Proof.
  intros Hget Hesc. unfold validate_field. rewrite Hget, escapes_under.
  destruct (run (annotation f) raw); try discriminate Hesc. reflexivity.
Qed.

Lemma model_escapes_in (cls : string) (fs : list field) (after : list validator)
    (d : list (string * json)) (f : field) :
  In f fs -> escapes (validate_field f d) = true ->
  escapes (run (BaseModel cls fs after) (JDict d)) = true.
Proof.
  intros Hin Hesc. destruct (first_escape fs d) as [e|] eqn:E.
  - rewrite (model_escapes cls fs after d e E). reflexivity.
  - rewrite (first_escape_none fs d f E Hin) in Hesc. discriminate Hesc.
Qed.

Lemma nested_escapes (cls : string) (fs : list field) (after : list validator)
    (d : list (string * json)) (f : field) (t : tyv) (raw : json) :
  In f fs -> annotation f = Optional t ->
  dict_get (fkey f) d = Some raw -> raw <> JNull ->
  escapes (run t raw) = true ->
  escapes (run (BaseModel cls fs after) (JDict d)) = true.
Proof.
  intros Hin Hann Hget Hraw Hesc.
  apply (model_escapes_in cls fs after d f Hin).
  apply (field_escapes f d raw Hget).
  rewrite Hann, (optional_not_null t raw Hraw). exact Hesc.
Qed.

Lemma union_first_escapes (t : tyv) (rest : list tyv) (j : json) :
  escapes (run t j) = true -> escapes (run (Union (t :: rest)) j) = true.
Proof.
  intros H. cbn [run Union validate_union].
  destruct (run t j); try discriminate H. reflexivity.
Qed.

Section Escapes.
Context {L : Library}.

Lemma null_weighting_escapes (o : list (string * json)) :
  dict_get "weighting" o = Some JNull -> escapes (run Option.cls (JDict o)) = true.
Proof.
  intros Hget. unfold Option.cls.
  apply (model_escapes_in "Option" Option.fields [] o Option.weighting).
  - unfold Option.fields. in_fields.
  - unfold validate_field.
    cbn [Option.weighting plain fkey falias fname annotation validators].
    rewrite Hget. reflexivity.
Qed.

Lemma vehicle_escape_reaches_lead (top a p veh : list (string * json)) :
  dict_get "adf" top = Some (JDict a) -> dict_get "prospect" a = Some (JDict p) ->
  dict_get "vehicle" p = Some (JDict veh) ->
  escapes (run Vehicle.cls (JDict veh)) = true ->
  escapes (run Lead.cls (JDict top)) = true.
Proof.
  intros Hadf Hprospect Hvehicle Hesc.
  assert (Hp : escapes (run Prospect.cls (JDict p)) = true).
  { unfold Prospect.cls.
    apply (nested_escapes "Prospect" Prospect.fields [] p
             (plain "vehicle" (Optional (Union [Vehicle.cls; ListOf Vehicle.cls])) [])
             (Union [Vehicle.cls; ListOf Vehicle.cls]) (JDict veh)).
    - unfold Prospect.fields. in_fields.
    - reflexivity.
    - exact Hvehicle.
    - discriminate.
    - apply union_first_escapes. exact Hesc. }
  assert (Ha : escapes (run ADF.cls (JDict a)) = true).
  { unfold ADF.cls.
    apply (nested_escapes "ADF" ADF.fields [] a (plain "prospect" (Optional Prospect.cls) [])
             Prospect.cls (JDict p)).
    - unfold ADF.fields. in_fields.
    - reflexivity.
    - exact Hprospect.
    - discriminate.
    - exact Hp. }
  unfold Lead.cls.
  apply (nested_escapes "Lead" Lead.fields [] top (plain "adf" (Optional ADF.cls) [])
           ADF.cls (JDict a)).
  - unfold Lead.fields. in_fields.
  - reflexivity.
  - exact Hadf.
  - discriminate.
  - exact Ha.
Qed.

End Escapes.

(** X19: an exception that escapes the validation of the vehicle ends the
    run with the one line of the last [except] clause, whatever else the
    document holds: no record is printed and none of the errors found
    elsewhere is reported.  A null weighting of the vehicle's option is
    enough for that. *)
Theorem escaping_vehicle_ends_the_run {L : Library} (top a p veh : list (string * json)) :
  dict_get "adf" top = Some (JDict a) -> dict_get "prospect" a = Some (JDict p) ->
  dict_get "vehicle" p = Some (JDict veh) ->
  (escapes (run Vehicle.cls (JDict veh)) = true ->
   exists text, main (Loaded (JDict top)) = [Text ("An error occurred: " ++ text)%string])
  /\ (forall o,
        dict_get "option" veh = Some (JDict o) -> dict_get "weighting" o = Some JNull ->
        escapes (run Vehicle.cls (JDict veh)) = true).
Proof.
  intros Hadf Hprospect Hvehicle. split.
  - intros Hesc.
    pose proof (vehicle_escape_reaches_lead top a p veh Hadf Hprospect Hvehicle Hesc) as H.
    unfold main, try_block, new_Lead.
    destruct (run Lead.cls (JDict top)) as [lead|errs|e]; try discriminate H.
    exists (exn_text e). reflexivity.
  - intros o Hoption Hweighting. unfold Vehicle.cls.
    apply (nested_escapes "Vehicle" Vehicle.fields [Vehicle.check_required_fields] veh
             (plain "option" (Optional Option.cls) []) Option.cls (JDict o)).
    + unfold Vehicle.fields. in_fields.
    + reflexivity.
    + exact Hoption.
    + discriminate.
    + apply null_weighting_escapes. exact Hweighting.
Qed.

Lemma escaping_vehicle_ends_the_run_witness :
  exists text,
    main (Loaded (in_prospect
                    [("vehicle", JDict [("@status", JStr "broken");
                                        ("option", JDict [("weighting", JNull)])])]))
    = [Text ("An error occurred: " ++ text)%string].
Proof.
  pose proof (@escaping_vehicle_ends_the_run sample_library
                [("adf", JDict [("prospect", JDict
                   [("vehicle", JDict [("@status", JStr "broken");
                                       ("option", JDict [("weighting", JNull)])])])])]
                _ _ _ eq_refl eq_refl eq_refl) as [Hrun Hnull].
  apply Hrun. apply (Hnull [("weighting", JNull)]); reflexivity.
Defined.

(** ** The strings a vehicle cannot do without *)

(** X20: [year], [make] and [model] of a vehicle take strings only.  Any
    string is kept as it is, the empty one included; a raw value of
    another kind -- a number, for a year written without quotes -- is not
    converted: the field is reported as not being a string and the
    vehicle is rejected. *)
Theorem vehicle_required_fields_take_strings_only {L : Library}
    (d : list (string * json)) (f : string) :
  In f ["year"; "make"; "model"] ->
  (forall s, dict_get f d = Some (JStr s) -> validate_field (required f Str) d = Ok (VStr s))
  /\ (forall raw, dict_get f d = Some raw -> (forall s, raw <> JStr s) ->
        validate_field (required f Str) d = Invalid [at_path [f] EStringType]
        /\ rejects (run Vehicle.cls (JDict d)) (at_path [f] EStringType)).
Proof.
  intros Hf. split.
  - intros s Hget. unfold validate_field.
    cbn [required fkey falias fname annotation validators]. rewrite Hget. reflexivity.
  - intros raw Hget Hraw.
    assert (Hv : validate_field (required f Str) d = Invalid [at_path [f] EStringType]).
    { unfold validate_field.
      cbn [required fkey falias fname annotation validators]. rewrite Hget.
      destruct raw; try reflexivity. exfalso. apply (Hraw s). reflexivity. }
    split; [exact Hv|].
    unfold Vehicle.cls.
    apply (model_rejects "Vehicle" Vehicle.fields [Vehicle.check_required_fields] d
             (required f Str)).
    + unfold Vehicle.fields. destruct Hf as [<- | [<- | [<- | []]]]; in_fields.
    + rewrite Hv. left. reflexivity.
Qed.

Lemma vehicle_required_fields_take_strings_only_witness :
  rejects (run Vehicle.cls
             (JDict [("year", JInt 2023); ("make", JStr "Hyundai"); ("model", JStr "i30")]))
          (at_path ["year"] EStringType)
  /\ validate_field (required "model" Str) [("model", JStr "")] = Ok (VStr "").
Proof.
  split.
  - apply (proj2 (@vehicle_required_fields_take_strings_only sample_library
                    [("year", JInt 2023); ("make", JStr "Hyundai"); ("model", JStr "i30")]
                    "year" (or_introl eq_refl))
             (JInt 2023) eq_refl).
    discriminate.
  - apply (proj1 (@vehicle_required_fields_take_strings_only sample_library
                    [("model", JStr "")] "model"
                    (or_intror (or_intror (or_introl eq_refl))))
             "" eq_refl).
Defined.

(** ** The keys a class reads *)

Lemma fields_read_their_keys (fs : list field) (d d' : list (string * json)) :
  (forall f, In f fs -> dict_get (fkey f) d = dict_get (fkey f) d') ->
  forall attrs errs, validate_fields fs d attrs errs = validate_fields fs d' attrs errs.
Proof.
  induction fs as [|f rest IH]; intros H attrs errs; [reflexivity|].
  cbn [validate_fields].
  assert (Hf : validate_field f d = validate_field f d').
  { unfold validate_field. rewrite (H f (or_introl eq_refl)). reflexivity. }
  rewrite Hf.
  assert (Hrest : forall g, In g rest -> dict_get (fkey g) d = dict_get (fkey g) d').
  { intros g Hg. apply H. right. exact Hg. }
  destruct (validate_field f d'); try reflexivity; apply IH; exact Hrest.
Qed.

Lemma model_reads_its_keys (cls : string) (fs : list field) (after : list validator)
    (d d' : list (string * json)) :
  (forall f, In f fs -> dict_get (fkey f) d = dict_get (fkey f) d') ->
  run (BaseModel cls fs after) (JDict d) = run (BaseModel cls fs after) (JDict d').
Proof.
  intros H. cbn [run BaseModel]. rewrite (fields_read_their_keys fs d d' H). reflexivity.
Qed.

(** X21: [Price] never reads a currency given under [@currency] or under
    [currency]: its field is declared with the alias [@curreny].  Two
    mappings that agree on every other key validate alike, to the same
    record or with the same errors. *)
Theorem price_never_reads_the_currency_key {L : Library} (d d' : list (string * json)) :
  (forall k, k <> "@currency" -> k <> "currency" -> dict_get k d = dict_get k d') ->
  run Price.cls (JDict d) = run Price.cls (JDict d').
Proof.
  intros H. unfold Price.cls. apply model_reads_its_keys.
  intros f Hin. unfold Price.fields, Price.currency in Hin. cbn [In] in Hin.
  repeat (destruct Hin as [<- | Hin]; [apply H; cbn; discriminate|]).
  contradiction.
Qed.

Lemma price_never_reads_the_currency_key_witness :
  run Price.cls (JDict [("@currency", JStr "usd"); ("@price", JInt 5)])
  = run Price.cls (JDict [("@price", JInt 5)]).
Proof.
  apply (@price_never_reads_the_currency_key sample_library).
  intros k Hk _. cbn [dict_get].
  destruct (String.eqb k "@currency") eqn:E; [|reflexivity].
  apply String.eqb_eq in E. contradiction.
Defined.
